(** * The request router: name lookup, the optimize pass and dispatch

    A shallow embedding of the router of package [iris]: the reverse
    lookup by route name ([RouteByName], [UriOf]), the one-time
    [optimize] pass that rebinds the strategy fields, the pooled
    not-found responder and the two dispatchers [serveFunc] and
    [serveDomainFunc]; and of the [create] command of the [iris] command
    line tool.

    Go strings are byte strings and so are [string]s here.  The router is
    a pointer receiver in the source; here every method threads the
    pointed-to record.  The mutex of [addRoute] is not modelled: the
    development is sequential. *)

From Stdlib Require Import String Ascii List Bool Arith ZArith Lia.
From Stdlib Require Import DecimalString.
Import ListNotations.
Open Scope string_scope.
Open Scope list_scope.

(** ** The functions of Go's package [strings] the router calls *)

Module strings.

(** First position at which [substr] occurs in [s]. *)
Fixpoint find (substr s : string) : option nat :=
  if String.prefix substr s then Some 0
  else match s with
       | EmptyString => None
       | String _ rest => option_map S (find substr rest)
       end.

(** [strings.Index(s, substr)]: the index of the first instance of
    [substr] in [s], or -1 when there is none. *)
Definition Index (s substr : string) : Z :=
  match find substr s with
  | Some i => Z.of_nat i
  | None => (-1)%Z
  end.

(** Instances of [substr] from left to right, none overlapping the one
    before: [skip] bytes of the last instance are still to be passed. *)
Fixpoint countFrom (skip : nat) (substr s : string) : nat :=
  match s with
  | EmptyString => 0
  | String _ rest =>
      match skip with
      | S k => countFrom k substr rest
      | O => if String.prefix substr s
             then S (countFrom (String.length substr - 1) substr rest)
             else countFrom 0 substr rest
      end
  end.

(** [strings.Count(s, substr)]: the number of non-overlapping instances
    of [substr] in [s]; for an empty [substr], one more than the number
    of characters of [s] (bytes here, code points in Go). *)
Definition Count (s substr : string) : Z :=
  match substr with
  | EmptyString => Z.of_nat (String.length s) + 1
  | _ => Z.of_nat (countFrom 0 substr s)
  end.

(** The slice [s[lo:hi]]. *)
Definition slice (s : string) (lo hi : Z) : string :=
  String.substring (Z.to_nat lo) (Z.to_nat hi - Z.to_nat lo) s.

(** [strings.HasPrefix(s, prefix)]. *)
Definition HasPrefix (s prefix : string) : bool := String.prefix prefix s.

(** Every instance of [old], from left to right and none overlapping
    the one before, replaced by [new]; [skip] bytes of the last instance
    are still to be dropped. *)
Fixpoint replaceFrom (skip : nat) (old new s : string) : string :=
  match s with
  | EmptyString => EmptyString
  | String c rest =>
      match skip with
      | S k => replaceFrom k old new rest
      | O => if String.prefix old s
             then new ++ replaceFrom (String.length old - 1) old new rest
             else String c (replaceFrom 0 old new rest)
      end
  end.

(** [new] before every character of [s], and after the last. *)
Fixpoint interleave (new s : string) : string :=
  match s with
  | EmptyString => new
  | String c rest => new ++ String c (interleave new rest)
  end.

(** [strings.Replace(s, old, new, -1)]: all the non-overlapping
    instances of [old] replaced; an empty [old] matches before every
    character and at the end (characters are bytes here, code points in
    Go). *)
Definition ReplaceAll (s old new : string) : string :=
  match old with
  | EmptyString => interleave new s
  | _ => replaceFrom 0 old new s
  end.

(** The byte [s[i]]; [None] when the index is out of range, where Go
    panics. *)
Definition at_ (s : string) (i : Z) : option ascii :=
  if (0 <=? i)%Z then String.get (Z.to_nat i) s else None.

(** The slice [s[lo:hi]] with Go's bounds check: [None] unless
    [0 <= lo <= hi <= len(s)]. *)
Definition sliceChecked (s : string) (lo hi : Z) : option string :=
  if (0 <=? lo)%Z && (lo <=? hi)%Z && (hi <=? Z.of_nat (String.length s))%Z
  then Some (slice s lo hi)
  else None.

(** [len(s)]. *)
Definition len (s : string) : Z := Z.of_nat (String.length s).

End strings.

(** ** Constants *)

Definition PrefixDynamicSubdomain : string := "www.iris_subd0mAin.iris".

Definition MethodGet : string := "GET".
Definition MethodPost : string := "POST".
Definition MethodPut : string := "PUT".
Definition MethodDelete : string := "DELETE".
Definition MethodConnect : string := "CONNECT".
Definition MethodHead : string := "HEAD".
Definition MethodPatch : string := "PATCH".
Definition MethodOptions : string := "OPTIONS".
Definition MethodTrace : string := "TRACE".

Definition AllMethods : list string :=
  ["GET"; "POST"; "PUT"; "DELETE"; "CONNECT"; "HEAD"; "PATCH"; "OPTIONS"; "TRACE"].

(** ** Requests and configuration *)

(** What the router reads of a [fasthttp.RequestCtx]. *)
Record RequestCtx : Type := mkRequestCtx {
  Method : string;
  Host : string;
  Path : string;
  RequestURI : string
}.

(** [station.config], the three settings [optimize] reads. *)
Record Config : Type := mkConfig {
  DisablePathEscape : bool;
  Profile : bool;
  ProfilePath : string
}.

(** The station, as far as the router follows it: its configuration and
    the host its server is bound to ([station.server.Host()]). *)
Record Iris : Type := mkIris {
  config : Config;
  serverHost : string
}.

(** ** Routes *)

(** A positional argument of [UriOf]/[ParseURI] (an [interface{}] in the
    source): a string or an integer. *)
Inductive arg : Type :=
| ArgString (s : string)
| ArgInt (n : Z).

Definition formatArg (a : arg) : string :=
  match a with
  | ArgString s => s
  | ArgInt n => NilZero.string_of_int (Z.to_int n)
  end.

(** The [IRoute] interface, for the methods the router calls: an
    interface value is the record of what its methods return. *)
Record IRoute : Type := mkIRoute {
  GetName : string;
  GetMethod : string;
  GetPath : string;
  GetDomain : string;
  HasCors : bool;
  ParseURI : list arg -> string
}.

Module Route.

(** Modelled from the spec: the [Route] struct is declared elsewhere in
    the package.  A route has an HTTP method, a full path pattern, an
    optional name and an owning domain; the zero value [Route{}] has
    them all empty. *)
Record t : Type := mk {
  name : string;
  method : string;
  path : string;
  domain : string;
  cors : bool
}.

Definition zero : t :=
  {| name := ""; method := ""; path := ""; domain := ""; cors := false |}.

(** Modelled from the spec: [ParseURI] is declared elsewhere in the
    package.  It substitutes the positional arguments into the pattern's
    named-parameter ([:name]) and wildcard ([*name]) placeholders in
    declaration order.  [atStart] tells that a segment begins here.  The
    spec is silent on a placeholder with no argument left; it is kept
    as written. *)
Fixpoint substitute (atStart : bool) (pattern : string) (args : list arg) : string :=
  match pattern with
  | EmptyString => EmptyString
  | String c rest =>
      if atStart && (Ascii.eqb c ":" || Ascii.eqb c "*") then
        match args with
        | a :: args' =>
            formatArg a ++
            (fix tail (s : string) : string :=
               match s with
               | EmptyString => EmptyString
               | String d s' =>
                   if Ascii.eqb d "/" then String d (substitute true s' args')
                   else tail s'
               end) rest
        | [] => String c (substitute false rest args)
        end
      else String c (substitute (Ascii.eqb c "/") rest args)
  end.

Definition parseURI (r : t) (args : list arg) : string :=
  substitute true (path r) args.

(** A [*Route] seen through the [IRoute] interface. *)
Definition asIRoute (r : t) : IRoute :=
  {| GetName := name r;
     GetMethod := method r;
     GetPath := path r;
     GetDomain := domain r;
     HasCors := cors r;
     ParseURI := parseURI r |}.

End Route.

(** Modelled from the spec: the error value [ErrRenderRouteNotFound] is
    declared elsewhere in the package; [Format] fills in the name of the
    route that was asked for.  Errors are a type of their own (the typed
    failure of the lookup), [None] below is Go's [nil] error. *)
Inductive error : Type :=
| ErrRenderRouteNotFound_Format (routeName : string).

(** ** Trees and the garden *)

(** A [tree], for what the router reads of it: the four fields and the
    answer of its [serve] method (the trie walk itself is elsewhere in
    the package).  A successful [serve] has run the route's handlers. *)
Record tree : Type := mkTree {
  method : string;
  domain : string;
  hosts : bool;
  cors : bool;
  serve : RequestCtx -> string -> bool
}.

(** The garden is the list of trees linked by [first] and [next]. *)
Definition Garden : Type := list tree.

(** Modelled from the spec: [Garden.visitAll] is declared elsewhere in
    the package.  It is the sequential, read-only traversal of the
    list, calling the visitor with each tree and its position; the
    variables the visitor closes over are the accumulator [acc]. *)
Fixpoint visitAllFrom {A : Type} (i : nat) (g : Garden)
    (fn : nat -> tree -> A -> A) (acc : A) : A :=
  match g with
  | [] => acc
  | t :: next => visitAllFrom (S i) next fn (fn i t acc)
  end.

Definition visitAll {A : Type} (g : Garden) (fn : nat -> tree -> A -> A) (acc : A) : A :=
  visitAllFrom 0 g fn acc.

(** ** The collaborators of the router

    What the router calls and router.go does not define: the
    garden's [Plant], the context type with [Reset] and [NotFound], and
    the constructor of the pool's contexts.  [NotFound] runs the
    registered error handler, which is user code: [None] is a panic. *)
Class Engine : Type := mkEngine {
  Plant : Iris -> Garden -> IRoute -> Garden;
  Context : Type;
  newContext : Iris -> Context;
  Reset : Context -> RequestCtx -> Context;
  NotFound : Context -> option Context
}.

(** ** The router *)

(** The two values the [ServeRequest] field is ever bound to; both are
    methods of the router itself. *)
Inductive dispatcher : Type :=
| boundServeFunc
| boundServeDomainFunc.

Record router {E : Engine} : Type := mkRouter {
  station : Iris;
  garden : Garden;
  methodMatch : string -> string -> bool;
  getRequestPath : RequestCtx -> string;
  lookups : list IRoute;
  ServeRequest : dispatcher;
  errorPool : list Context;
  optimized : bool
}.

(** What a dispatch does that can be seen from outside: a tree was asked
    to serve a path and answered, or the not-found responder ran. *)
Inductive event {E : Engine} : Type :=
| EvServe (t : tree) (path : string) (handled : bool)
| EvNotFound (ctx : Context).

Inductive result (A : Type) : Type :=
| Returned (a : A)
| Panicked.
Arguments Returned {A} a.
Arguments Panicked {A}.

(** The end of a run: how it ended, the router it left and what it did. *)
Record run {E : Engine} (A : Type) : Type := mkRun {
  outcome : result A;
  after : router;
  served : list event
}.
Arguments mkRun {E A} outcome after served.
Arguments outcome {E A} r.
Arguments after {E A} r.
Arguments served {E A} r.

Section Router.

Context {E : Engine}.

(** Code that runs on a router: it may change it, emit events, and
    panic (the state reached and the events emitted stay). *)
Definition M (A : Type) : Type := router -> run A.

Definition ret {A : Type} (a : A) : M A :=
  fun r => mkRun (Returned a) r [].

Definition bind {A B : Type} (m : M A) (f : A -> M B) : M B :=
  fun r =>
    let x := m r in
    match outcome x with
    | Returned a =>
        let y := f a (after x) in
        mkRun (outcome y) (after y) (served x ++ served y)
    | Panicked => mkRun Panicked (after x) (served x)
    end.

Definition get : M router := fun r => mkRun (Returned r) r [].

Definition emit (e : event) : M unit := fun r => mkRun (Returned tt) r [e].

Definition panic {A : Type} : M A := fun r => mkRun Panicked r [].

Notation "x <- m ;; k" := (bind m (fun x => k))
  (at level 61, m at next level, right associativity).
Notation "m ;;; k" := (bind m (fun _ => k))
  (at level 61, right associativity).

(** *** Method matching *)

Definition methodMatchCorsFunc (m1 reqMethod : string) : bool :=
  String.eqb m1 reqMethod || String.eqb reqMethod MethodOptions.

Definition methodMatchFunc (m1 m2 : string) : bool :=
  String.eqb m1 m2.

Definition getRequestPathDefault (reqCtx : RequestCtx) : string :=
  Path reqCtx.

(** *** Construction and registration *)

(** [station.newContextPool()] gives a pool that is empty and builds a
    context when asked for one. *)
Definition newRouter (station : Iris) : router :=
  {| station := station;
     garden := [];
     methodMatch := methodMatchFunc;
     getRequestPath := getRequestPathDefault;
     lookups := [];
     ServeRequest := boundServeFunc;
     errorPool := [];
     optimized := false |}.

Definition addRoute (r : router) (route : IRoute) : router :=
  {| station := station r;
     garden := Plant (station r) (garden r) route;
     methodMatch := methodMatch r;
     getRequestPath := getRequestPath r;
     lookups := lookups r ++ [route];
     ServeRequest := ServeRequest r;
     errorPool := errorPool r;
     optimized := optimized r |}.

(** A router as it stands after [newRouter] and the registration, in
    order, of [routes]. *)
Definition registered (station : Iris) (routes : list IRoute) : router :=
  fold_left addRoute routes (newRouter station).

(** *** Reverse lookup by name *)

Fixpoint RouteByNameIn (lookups : list IRoute) (routeName : string) : IRoute :=
  match lookups with
  | [] => Route.asIRoute Route.zero
  | route :: rest =>
      if String.eqb (GetName route) routeName then route
      else RouteByNameIn rest routeName
  end.

Definition RouteByName (r : router) (routeName : string) : IRoute :=
  RouteByNameIn (lookups r) routeName.

Definition UriOf (r : router) (routeName : string) (args : list arg)
  : string * option error :=
  let route := RouteByName r routeName in
  if String.eqb (GetMethod route) "" then
    ("", Some (ErrRenderRouteNotFound_Format routeName))
  else (ParseURI route args, None).

(** *** The optimize pass *)

Definition router_cors (r : router) : bool :=
  visitAll (garden r) (fun _ t has => if cors t then true else has) false.

Definition router_hosts (r : router) : bool :=
  visitAll (garden r) (fun _ t has => if hosts t then true else has) false.

Definition set_methodMatch (r : router) (f : string -> string -> bool) : router :=
  {| station := station r; garden := garden r; methodMatch := f;
     getRequestPath := getRequestPath r; lookups := lookups r;
     ServeRequest := ServeRequest r; errorPool := errorPool r;
     optimized := optimized r |}.

Definition set_ServeRequest (r : router) (d : dispatcher) : router :=
  {| station := station r; garden := garden r; methodMatch := methodMatch r;
     getRequestPath := getRequestPath r; lookups := lookups r;
     ServeRequest := d; errorPool := errorPool r;
     optimized := optimized r |}.

Definition set_getRequestPath (r : router) (f : RequestCtx -> string) : router :=
  {| station := station r; garden := garden r; methodMatch := methodMatch r;
     getRequestPath := f; lookups := lookups r;
     ServeRequest := ServeRequest r; errorPool := errorPool r;
     optimized := optimized r |}.

Definition set_errorPool (r : router) (p : list Context) : router :=
  {| station := station r; garden := garden r; methodMatch := methodMatch r;
     getRequestPath := getRequestPath r; lookups := lookups r;
     ServeRequest := ServeRequest r; errorPool := p;
     optimized := optimized r |}.

Definition set_optimized (r : router) (b : bool) : router :=
  {| station := station r; garden := garden r; methodMatch := methodMatch r;
     getRequestPath := getRequestPath r; lookups := lookups r;
     ServeRequest := ServeRequest r; errorPool := errorPool r;
     optimized := b |}.

(** Modelled from the spec: the party's [Get] is declared elsewhere in the package.  Registering the profiling handler is an ordinary,
    additive route registration: a GET route on the given path, with no
    name and no domain, handed to [addRoute]. *)
Definition Get (r : router) (path : string) : router :=
  addRoute r (Route.asIRoute
    {| Route.name := ""; Route.method := MethodGet; Route.path := path;
       Route.domain := ""; Route.cors := false |}).

Definition optimize (r : router) : router :=
  if optimized r then r
  else
    let r := if router_cors r then set_methodMatch r methodMatchCorsFunc else r in
    let r := if router_hosts r then set_ServeRequest r boundServeDomainFunc else r in
    let r := if DisablePathEscape (config (station r))
             then set_getRequestPath r (fun reqCtx => RequestURI reqCtx)
             else r in
    let r := if Profile (config (station r))
                && negb (String.eqb (ProfilePath (config (station r))) "")
             then
               let debugPath := ProfilePath (config (station r)) in
               Get r (debugPath ++ "/*action")
             else r in
    set_optimized r true.

(** *** The not-found responder *)

(** [errorPool.Get()]: a pooled context when there is one, a new one
    otherwise; the pool is taken to hand out the context put last. *)
Definition errorPool_Get : M Context :=
  fun r =>
    match errorPool r with
    | ctx :: rest => mkRun (Returned ctx) (set_errorPool r rest) []
    | [] => mkRun (Returned (newContext (station r))) r []
    end.

Definition errorPool_Put (ctx : Context) : M unit :=
  fun r => mkRun (Returned tt) (set_errorPool r (ctx :: errorPool r)) [].

(** [ctx.NotFound()]: the responder runs on the context (an event),
    and either returns or panics. *)
Definition ctx_NotFound (ctx : Context) : M Context :=
  emit (EvNotFound ctx) ;;;
  match NotFound ctx with
  | Some ctx' => ret ctx'
  | None => panic
  end.

Definition notFound (reqCtx : RequestCtx) : M unit :=
  ctx <- errorPool_Get ;;
  let ctx := Reset ctx reqCtx in
  ctx <- ctx_NotFound ctx ;;
  errorPool_Put ctx.

(** *** Dispatch *)

(** [tree.serve(reqCtx, path)], with the answer recorded. *)
Definition tree_serve (t : tree) (reqCtx : RequestCtx) (path : string) : M bool :=
  let ok := serve t reqCtx path in
  emit (EvServe t path ok) ;;; ret ok.

(** The loop of [serveFunc]; [tree] is the rest of the list. *)
Fixpoint serveFuncLoop (reqCtx : RequestCtx) (method' path : string)
    (tree : Garden) : M unit :=
  match tree with
  | [] => notFound reqCtx
  | t :: next =>
      r <- get ;;
      if methodMatch r (method t) method' then
        ok <- tree_serve t reqCtx path ;;
        if negb ok then notFound reqCtx else ret tt
      else serveFuncLoop reqCtx method' path next
  end.

Definition serveFunc (reqCtx : RequestCtx) : M unit :=
  r <- get ;;
  let method' := Method reqCtx in
  let tree := garden r in
  let path := getRequestPath r reqCtx in
  serveFuncLoop reqCtx method' path tree.

(** Lines 278 to 285 of [serveDomainFunc]: the full domain of the
    request, empty when the host names no subdomain. *)
Definition requestFulldomain (host serverHost : string) : string :=
  if (2 <=? strings.Count host ".")%Z && negb (String.eqb host serverHost) then
    let portIdx := strings.Index host ":" in
    if negb (portIdx =? -1)%Z then strings.slice host 0 portIdx
    else host
  else "".

(** What one tree does to the path before its method is looked at. *)
Definition domainPath (fulldomain : string) (t : tree) (path : string) : string :=
  if hosts t && negb (String.eqb (domain t) "") && negb (String.eqb fulldomain "") then
    if String.eqb (domain t) fulldomain then fulldomain ++ path
    else if negb (strings.Index (domain t) PrefixDynamicSubdomain =? -1)%Z
         then PrefixDynamicSubdomain ++ path
         else path
  else path.

(** The loop of [serveDomainFunc]; [path] is the variable the loop
    assigns, [tree] the rest of the list. *)
Fixpoint serveDomainLoop (reqCtx : RequestCtx) (method' fulldomain path : string)
    (tree : Garden) : M unit :=
  match tree with
  | [] => notFound reqCtx
  | t :: next =>
      let path := domainPath fulldomain t path in
      r <- get ;;
      if methodMatch r (method t) method' then
        ok <- tree_serve t reqCtx path ;;
        if ok then ret tt
        else serveDomainLoop reqCtx method' fulldomain path next
      else serveDomainLoop reqCtx method' fulldomain path next
  end.

Definition serveDomainFunc (reqCtx : RequestCtx) : M unit :=
  r <- get ;;
  let method' := Method reqCtx in
  let host := Host reqCtx in
  let fulldomain := requestFulldomain host (serverHost (station r)) in
  let path := getRequestPath r reqCtx in
  let tree := garden r in
  serveDomainLoop reqCtx method' fulldomain path tree.

(** Calling the [ServeRequest] field. *)
Definition callServeRequest (reqCtx : RequestCtx) : M unit :=
  r <- get ;;
  match ServeRequest r with
  | boundServeFunc => serveFunc reqCtx
  | boundServeDomainFunc => serveDomainFunc reqCtx
  end.

End Router.

(** ** Vocabulary of the statements *)

Section Reading.

Context {E : Engine}.

(** The context [errorPool.Get()] hands out on router [r]. *)
Definition pooled (r : router) : Context :=
  match errorPool r with
  | ctx :: _ => ctx
  | [] => newContext (station r)
  end.

(** The one event of the not-found responder for request [reqCtx]. *)
Definition answeredNotFound (r : router) (reqCtx : RequestCtx) : event :=
  EvNotFound (Reset (pooled r) reqCtx).

(** A tree is host-scoped when its [hosts] flag is set and it has a
    domain. *)
Definition hostScoped (t : tree) : bool :=
  hosts t && negb (String.eqb (domain t) "").

(** The tree's domain is the dynamic one: it contains the sentinel. *)
Definition dynamicSubdomain (t : tree) : bool :=
  negb (strings.Index (domain t) PrefixDynamicSubdomain =? -1)%Z.

(** What tree [t] puts in front of the lookup path for a request of
    full domain [fulldomain] (empty: no subdomain was derived). *)
Definition subdomainPrefix (fulldomain : string) (t : tree) : string :=
  if hostScoped t && negb (String.eqb fulldomain "") then
    if String.eqb (domain t) fulldomain then fulldomain
    else if dynamicSubdomain t then PrefixDynamicSubdomain
    else ""
  else "".

(** The lookup path of each tree of a scan that starts with [path]:
    every tree rewrites the lookup path it receives. *)
Fixpoint lookupPaths (fulldomain path : string) (trees : Garden) : list string :=
  match trees with
  | [] => []
  | t :: next =>
      let path' := (subdomainPrefix fulldomain t ++ path)%string in
      path' :: lookupPaths fulldomain path' next
  end.

(** The prefixes of the trees [seen] so far, the latest in front. *)
Definition prefixesOf (fulldomain : string) (seen : Garden) : string :=
  fold_left (fun acc t => (subdomainPrefix fulldomain t ++ acc)%string) seen "".

(** The lookup path of the tree at position [i], in closed form. *)
Definition lookupPathAt (fulldomain path : string) (trees : Garden) (i : nat) : string :=
  (prefixesOf fulldomain (firstn (S i) trees) ++ path)%string.

(** Trying the attempts in order until one is served: the failed
    attempts, then the first served one, or [miss] after them all. *)
Fixpoint firstMatch (reqCtx : RequestCtx) (miss : list event)
    (attempts : list (tree * string)) : list event :=
  match attempts with
  | [] => miss
  | (t, p) :: rest =>
      if serve t reqCtx p then [EvServe t p true]
      else EvServe t p false :: firstMatch reqCtx miss rest
  end.

(** The trees of matching method among [trees], each with its lookup
    path from [paths]. *)
Definition attemptsOf (r : router) (method' : string) (trees : Garden)
    (paths : list string) : list (tree * string) :=
  filter (fun a => methodMatch r (method (fst a)) method') (combine trees paths).

(** The host up to its first colon: the host without its port. *)
Fixpoint withoutPort (host : string) : string :=
  match host with
  | EmptyString => EmptyString
  | String c rest => if Ascii.eqb c ":" then EmptyString else String c (withoutPort rest)
  end.

Definition isServe (e : event) : bool :=
  match e with
  | EvServe _ _ _ => true
  | EvNotFound _ => false
  end.

End Reading.

(** ** A small engine to run the router on

    Trees that serve a fixed set of static paths, and contexts that
    remember the request they were reset to. *)

Module Demo.

Definition staticTree (method' domain' : string) (hosts' cors' : bool)
    (paths : list string) : tree :=
  {| method := method'; domain := domain'; hosts := hosts'; cors := cors';
     serve := fun _ path => existsb (String.eqb path) paths |}.

(** The key a route is stored under: its path, behind its domain. *)
Definition keyOf (route : IRoute) : string := GetDomain route ++ GetPath route.

Definition plantIn (t : tree) (route : IRoute) : tree :=
  {| method := method t; domain := domain t;
     hosts := hosts t || negb (String.eqb (GetDomain route) "");
     cors := cors t || HasCors route;
     serve := fun reqCtx path =>
                String.eqb path (keyOf route) || serve t reqCtx path |}.

(** Modelled from the spec: [Garden.Plant] is declared elsewhere in the package.  It locates the tree whose method and domain are
    the route's and plants the route there; when there is none it
    appends a new tree to the list. *)
Fixpoint plant (g : Garden) (route : IRoute) : Garden :=
  match g with
  | [] => [plantIn (staticTree (GetMethod route) (GetDomain route) false false [])
                   route]
  | t :: next =>
      if String.eqb (method t) (GetMethod route)
         && String.eqb (domain t) (GetDomain route)
      then plantIn t route :: next
      else t :: plant next route
  end.

(** An engine whose error handler returns. *)
Definition quiet : Engine :=
  {| Plant := fun _ g route => plant g route;
     Context := option RequestCtx;
     newContext := fun _ => None;
     Reset := fun _ reqCtx => Some reqCtx;
     NotFound := fun ctx => Some ctx |}.

(** An engine whose error handler panics. *)
Definition panicking : Engine :=
  {| Plant := fun _ g route => plant g route;
     Context := option RequestCtx;
     newContext := fun _ => None;
     Reset := fun _ reqCtx => Some reqCtx;
     NotFound := fun _ => None |}.

Definition local : Iris :=
  {| config := {| DisablePathEscape := false; Profile := false; ProfilePath := "" |};
     serverHost := "127.0.0.1:8080" |}.

Definition request (method' host path : string) : RequestCtx :=
  {| Method := method'; Host := host; Path := path; RequestURI := path |}.

(** A named route nobody gave a method. *)
Definition nameless : IRoute :=
  Route.asIRoute
    {| Route.name := "profile"; Route.method := ""; Route.path := "/profile/:username";
       Route.domain := ""; Route.cors := false |}.

(** A route behind the CORS middleware. *)
Definition shared : IRoute :=
  Route.asIRoute
    {| Route.name := "shared"; Route.method := "POST"; Route.path := "/shared";
       Route.domain := ""; Route.cors := true |}.

Definition home : IRoute :=
  Route.asIRoute
    {| Route.name := "home"; Route.method := "GET"; Route.path := "/";
       Route.domain := ""; Route.cors := false |}.

(** A router with one context in its pool. *)
Definition stocked (E : Engine) (ctx : @Context E) : @router E :=
  set_errorPool (newRouter local) [ctx].

(** Three trees: a GET tree of the subdomain, a POST tree of the
    subdomain and a POST tree of no domain that serves the doubly
    prefixed path. *)
Definition blogGet : tree :=
  staticTree "GET" "blog.example.com" true false ["blog.example.com/post"].
Definition blogPost : tree :=
  staticTree "POST" "blog.example.com" true false ["blog.example.com/post"].
Definition plainPost : tree :=
  staticTree "POST" "" false false ["blog.example.comblog.example.com/post"].

Definition blogRouter : @router quiet :=
  {| station := local;
     garden := [blogGet; blogPost; plainPost];
     methodMatch := methodMatchFunc;
     getRequestPath := getRequestPathDefault;
     lookups := [];
     ServeRequest := boundServeDomainFunc;
     errorPool := [];
     optimized := true |}.

End Demo.

(** ** The command line tool

    The [create] command of the [iris] tool.  What it asks of the
    machine (the environment, the file system, the network, the
    processes it starts) is a record of answers, one per call; what it
    does to it is the list of its actions, in order.  A run ends by
    returning or by a panic of the Go runtime (an index or a slice out
    of range). *)

Module Tool.

Definition PackagesURL : string :=
  "https://github.com/iris-contrib/iris-command-assets/archive/master.zip".

Definition PackagesExportedName : string := "iris-command-assets-master".

(** The line feed of Go's ["\n"]. *)
Definition nl : string := String (Ascii.ascii_of_nat 10) EmptyString.

(** The one-byte string ["\\"] of Go, a backslash. *)
Definition backslash : string := String (Ascii.ascii_of_nat 92) EmptyString.

(** [cli.Flags], for the two methods [create] calls. *)
Record Flags : Type := mkFlags {
  flagBool : string -> bool;
  flagString : string -> string
}.

(** The machine the tool runs on.  Errors are their messages. *)
Record Machine : Type := mkMachine {
  GOPATH : string;
  PathSeparator : string;
  osPathSeparator : ascii;
  GOOS : string;
  DirectoryExists : string -> bool;
  Install : string -> string -> string * option string;
  CopyDir : string -> string -> option string;
  RemoveFile : string -> option string;
  ReadFile : string -> string * option string;
  WriteFile : string -> string -> option string;
  Start : list string -> string -> option string
}.

Inductive action : Type :=
| Installed (url target : string)
| Copied (source target : string)
| Removed (path : string)
| Read (file : string)
| Written (file content : string)
| Printf (format : string) (args : list string)
| InfoPrint (format : string) (args : list string)
| Print (text : string)
| Started (command : list string) (dir : string)
| Waited (command : list string).

(** A run of the tool: its actions and how it ended. *)
Definition Run (A : Type) : Type := (list action * result A)%type.

Definition done {A : Type} (a : A) : Run A := ([], Returned a).

Definition andThen {A B : Type} (m : Run A) (f : A -> Run B) : Run B :=
  match snd m with
  | Returned a => (fst m ++ fst (f a), snd (f a))
  | Panicked => (fst m, Panicked)
  end.

Definition act (a : action) : Run unit := ([a], Returned tt).

(** The value of an indexing or slicing, or the panic of the runtime. *)
Definition checked {A : Type} (o : option A) : Run A :=
  match o with
  | Some a => done a
  | None => ([], Panicked)
  end.

Definition when (b : bool) (m : Run unit) : Run unit :=
  if b then m else done tt.

Section OnMachine.

Variable m : Machine.

Local Open Scope string_scope.

Notation "x <- c ;; k" := (andThen c (fun x => k))
  (at level 61, c at next level, right associativity).
Notation "c ;;; k" := (andThen c (fun _ => k))
  (at level 61, right associativity).

Definition packagesInstallDir : string :=
  GOPATH m ++ PathSeparator m ++ "src" ++ PathSeparator m ++ "github.com"
  ++ PathSeparator m ++ "iris-contrib" ++ PathSeparator m
  ++ "iris-command-assets" ++ PathSeparator m.

Definition downloadPackages : Run unit :=
  let errMsg := nl ++ "Problem while downloading the assets from the internet for the first time. Trace: %s" in
  act (Installed PackagesURL packagesInstallDir) ;;;
  let (installedDir, err) := Install m PackagesURL packagesInstallDir in
  match err with
  | Some e => act (Printf errMsg [e])
  | None =>
      act (Copied installedDir packagesInstallDir) ;;;
      match CopyDir m installedDir packagesInstallDir with
      | Some e => act (Printf errMsg [e])
      | None =>
          path <- checked (strings.sliceChecked installedDir 0
                             (strings.len installedDir - 1)) ;;
          act (Removed path)
      end
  end.

Definition createPackage (packageName targetDir : string) : Run (option string) :=
  let installTo := GOPATH m ++ PathSeparator m ++ "src" ++ PathSeparator m ++ targetDir in
  let packageDir := packagesInstallDir ++ PathSeparator m ++ packageName in
  act (Copied packageDir installTo) ;;;
  match CopyDir m packageDir installTo with
  | Some e =>
      act (Printf (nl ++ "Problem while copying the %s package to the %s. Trace: %s")
             [packageName; installTo; e]) ;;;
      done (Some e)
  | None =>
      let targetDir := strings.ReplaceAll targetDir backslash "/" in
      let mainFile := installTo ++ PathSeparator m ++ "backend" ++ PathSeparator m ++ "main.go" in
      act (Read mainFile) ;;;
      let (input, err) := ReadFile m mainFile in
      when (match err with Some _ => true | None => false end)
        (act (Printf "Error while preparing main file: %#v"
                [match err with Some e => e | None => "" end])) ;;;
      let output :=
        strings.ReplaceAll input
          ("github.com/iris-contrib/iris-command-assets/" ++ packageName ++ "/")
          (targetDir ++ "/") in
      act (Written mainFile output) ;;;
      let err := WriteFile m mainFile output in
      when (match err with Some _ => true | None => false end)
        (act (Printf "Error while preparing main file: %#v"
                [match err with Some e => e | None => "" end])) ;;;
      act (InfoPrint "%s package was installed successfully" [packageName]) ;;;
      let buildCmd := ["go"; "build"] in
      last <- checked (strings.at_ installTo (strings.len installTo - 1)) ;;
      let installTo :=
        if negb (Ascii.eqb last (osPathSeparator m)) || negb (Ascii.eqb last "/")
        then installTo ++ PathSeparator m
        else installTo in
      let dir := installTo ++ "backend" in
      act (Started buildCmd dir) ;;;
      let err := Start m buildCmd dir in
      when (match err with Some _ => true | None => false end)
        (act (Printf (nl ++ " Failed to build the %s package. Trace: %s")
                [packageName; match err with Some e => e | None => "" end])) ;;;
      act (Waited buildCmd) ;;;
      act (Print (nl ++ nl)) ;;;
      let executable :=
        if String.eqb (GOOS m) "windows" then "backend" ++ ".exe" else "backend" in
      let runCmd := ["." ++ PathSeparator m ++ executable] in
      act (Started runCmd dir) ;;;
      let err := Start m runCmd dir in
      when (match err with Some _ => true | None => false end)
        (act (Printf (nl ++ " Failed to run the %s package. Trace: %s")
                [packageName; match err with Some e => e | None => "" end])) ;;;
      act (Waited runCmd) ;;;
      done err
  end.

(** The target directory as [create] hands it on: the [dir] flag
    without a leading [./] and without a trailing slash. *)
Definition targetDirOf (dir : string) : Run string :=
  let targetDir := dir in
  targetDir <-
    (if strings.HasPrefix targetDir "./"
        || strings.HasPrefix targetDir ("." ++ PathSeparator m)
     then checked (strings.sliceChecked targetDir 2 (strings.len targetDir))
     else done targetDir) ;;
  last <- checked (strings.at_ targetDir (strings.len targetDir - 1)) ;;
  if Ascii.eqb last "/"
  then checked (strings.sliceChecked targetDir 0 (strings.len targetDir - 1))
  else done targetDir.

(** The result [err] of [create] is named and never assigned: what
    [createPackage] returns is dropped. *)
Definition create (flags : Flags) : Run (option string) :=
  let err : option string := None in
  when (negb (DirectoryExists m packagesInstallDir) || negb (flagBool flags "offline"))
    downloadPackages ;;;
  targetDir <- targetDirOf (flagString flags "dir") ;;
  _ <- createPackage (flagString flags "type") targetDir ;;
  done err.

End OnMachine.

(** Where [createPackage] installs to, for the target directory it is
    given, and the directory it starts its two commands in: the
    separator is put behind [installTo] unless the machine's separator
    is a slash and [installTo] ends with one. *)
Definition installToOf (m : Machine) (targetDir : string) : string :=
  (GOPATH m ++ PathSeparator m ++ "src" ++ PathSeparator m ++ targetDir)%string.

Definition endsWithSlash (s : string) : bool :=
  match strings.at_ s (strings.len s - 1) with
  | Some c => Ascii.eqb c "/"
  | None => false
  end.

Definition backendDirOf (m : Machine) (targetDir : string) : string :=
  ((if endsWithSlash (installToOf m targetDir) && Ascii.eqb (osPathSeparator m) "/"
    then installToOf m targetDir
    else installToOf m targetDir ++ PathSeparator m) ++ "backend")%string.

Definition mainFileOf (m : Machine) (targetDir : string) : string :=
  (installToOf m targetDir ++ PathSeparator m ++ "backend" ++ PathSeparator m
   ++ "main.go")%string.

Definition runCommandOf (m : Machine) : list string :=
  [("." ++ PathSeparator m
    ++ (if String.eqb (GOOS m) "windows" then "backend.exe" else "backend"))%string].

(** A machine on which everything succeeds, with slashes. *)
Definition unix : Machine :=
  {| GOPATH := "/home/gopher/go";
     PathSeparator := "/";
     osPathSeparator := "/";
     GOOS := "linux";
     DirectoryExists := fun _ => true;
     Install := fun _ target => ((target ++ PackagesExportedName ++ "/")%string, None);
     CopyDir := fun _ _ => None;
     RemoveFile := fun _ => None;
     ReadFile := fun _ =>
       ("import github.com/iris-contrib/iris-command-assets/basic/backend/api", None);
     WriteFile := fun _ _ => None;
     Start := fun _ _ => None |}.

(** The same machine with no network: the download fails. *)
Definition unplugged : Machine :=
  {| GOPATH := GOPATH unix;
     PathSeparator := PathSeparator unix;
     osPathSeparator := osPathSeparator unix;
     GOOS := GOOS unix;
     DirectoryExists := DirectoryExists unix;
     Install := fun _ _ => (EmptyString, Some "no route to host");
     CopyDir := CopyDir unix;
     RemoveFile := RemoveFile unix;
     ReadFile := ReadFile unix;
     WriteFile := WriteFile unix;
     Start := Start unix |}.

(** The flags of [iris create -offline=... -dir=... -type=...]. *)
Definition flagsOf (offline : bool) (dir type : string) : Flags :=
  {| flagBool := fun name => if String.eqb name "offline" then offline else false;
     flagString := fun name =>
       if String.eqb name "dir" then dir
       else if String.eqb name "type" then type
       else EmptyString |}.

End Tool.

(** ** Vocabulary of the further statements *)

Section Outcomes.

Context {E : Engine}.

(** The events of attempts that were not served. *)
Definition failedAttempts (attempts : list (tree * string)) : list event :=
  map (fun a => EvServe (fst a) (snd a) false) attempts.

(** How a dispatch of [reqCtx] on router [r] can end: after some failed
    attempts, either a tree serves, the dispatch returns and the router
    is as it was; or the not-found responder runs on [r], and the
    dispatch ends as the responder does. *)
Definition dispatched (r : router) (reqCtx : RequestCtx) (x : run unit) : Prop :=
  exists failed,
    (exists t p,
        serve t reqCtx p = true /\
        served x = failedAttempts failed ++ [EvServe t p true] /\
        outcome x = Returned tt /\
        after x = r)
    \/
    (served x = failedAttempts failed ++ [answeredNotFound r reqCtx] /\
     outcome x = outcome (notFound reqCtx r) /\
     after x = after (notFound reqCtx r)).

End Outcomes.

(** ** Facts *)

Section Facts.

Context {E : Engine}.

(** *** Registration *)

Lemma lookups_fold_addRoute (routes : list IRoute) (r : router) :
  lookups (fold_left addRoute routes r) = lookups r ++ routes.
Proof.
  revert r; induction routes as [|route routes IH]; intros r; simpl.
  - now rewrite app_nil_r.
  - rewrite IH. simpl. now rewrite <- app_assoc.
Qed.

Lemma lookups_registered (station : Iris) (routes : list IRoute) :
  lookups (registered station routes) = routes.
Proof. unfold registered. now rewrite lookups_fold_addRoute. Qed.

Lemma fold_addRoute_keeps (routes : list IRoute) (r : router) :
  optimized (fold_left addRoute routes r) = optimized r /\
  methodMatch (fold_left addRoute routes r) = methodMatch r /\
  ServeRequest (fold_left addRoute routes r) = ServeRequest r /\
  station (fold_left addRoute routes r) = station r.
Proof.
  revert r; induction routes as [|route routes IH]; intros r; simpl.
  - repeat split.
  - destruct (IH (addRoute r route)) as (H1 & H2 & H3 & H4).
    rewrite H1, H2, H3, H4. repeat split.
Qed.

(** *** Reverse lookup *)

Lemma RouteByNameIn_found (before after : list IRoute) (route : IRoute) :
  (forall x, In x before -> GetName x <> GetName route) ->
  RouteByNameIn (before ++ route :: after) (GetName route) = route.
Proof.
  induction before as [|x before IH]; intros Hne; simpl.
  - now rewrite String.eqb_refl.
  - destruct (String.eqb_spec (GetName x) (GetName route)) as [Heq|_].
    + exfalso. apply (Hne x); [now left | exact Heq].
    + apply IH. intros y Hy. apply Hne. now right.
Qed.

Lemma RouteByNameIn_scan (l : list IRoute) (routeName : string) :
  (exists before route after,
      l = before ++ route :: after /\
      GetName route = routeName /\
      (forall x, In x before -> GetName x <> routeName) /\
      RouteByNameIn l routeName = route)
  \/
  ((forall x, In x l -> GetName x <> routeName) /\
   RouteByNameIn l routeName = Route.asIRoute Route.zero).
Proof.
  induction l as [|x l IH]; simpl.
  - right. split; [intros x [] | reflexivity].
  - destruct (String.eqb_spec (GetName x) routeName) as [Heq|Hne].
    + left. exists [], x, l. repeat split; [exact Heq | intros y []].
    + destruct IH as [(before & route & after & Hl & Hn & Hb & Hr) | (Hall & Hr)].
      * left. exists (x :: before), route, after. subst l.
        repeat split; try assumption.
        intros y [<- | Hy]; [exact Hne | now apply Hb].
      * right. split; [|exact Hr].
        intros y [<- | Hy]; [exact Hne | now apply Hall].
Qed.

(** C7: [RouteByName] scans the registered routes in registration order
    and compares names exactly (case included).  Either the sequence
    splits around the first route named [routeName], which is the
    route returned, or no registered route has that name and the
    sentinel empty route is returned, whose path and method are empty.
    The sequence scanned is the routes in the order [addRoute] got
    them. *)
Theorem RouteByName_first_match (r : router) (routeName : string) :
  ((exists before route after,
       lookups r = before ++ route :: after /\
       GetName route = routeName /\
       (forall x, In x before -> GetName x <> routeName) /\
       RouteByName r routeName = route)
   \/
   ((forall x, In x (lookups r) -> GetName x <> routeName) /\
    RouteByName r routeName = Route.asIRoute Route.zero /\
    GetPath (RouteByName r routeName) = "" /\
    GetMethod (RouteByName r routeName) = ""))
  /\ (forall route, lookups (addRoute r route) = lookups r ++ [route])
  /\ (forall station routes, lookups (registered station routes) = routes).
Proof.
  split; [|split].
  - unfold RouteByName.
    destruct (RouteByNameIn_scan (lookups r) routeName) as [H | (Hall & Hr)].
    + left. exact H.
    + right. rewrite Hr. repeat split. exact Hall.
  - reflexivity.
  - apply lookups_registered.
Qed.

(** C6: [UriOf] is a total function of the router, the name and the
    arguments: it returns a pair and has no other way out.  It returns
    the route-not-found error (and the empty string) exactly when the
    route resolved by name has an empty method; otherwise it returns
    what the route's [ParseURI] makes of the arguments, with no error. *)
Theorem UriOf_error_iff_empty_method (r : router) (routeName : string) (args : list arg) :
  let route := RouteByName r routeName in
  (GetMethod route = "" /\
   UriOf r routeName args = ("", Some (ErrRenderRouteNotFound_Format routeName)))
  \/
  (GetMethod route <> "" /\
   UriOf r routeName args = (ParseURI route args, None)).
Proof.
  intros route. unfold UriOf. fold route.
  destruct (String.eqb_spec (GetMethod route) "") as [Heq|Hne].
  - left. split; [exact Heq | reflexivity].
  - right. split; [exact Hne | reflexivity].
Qed.

(** C10: when a route with an empty method is registered and no route
    registered before it has its name, [RouteByName] on that name
    returns this very route, and yet [UriOf] on that name reports the
    route-not-found error. *)
Theorem UriOf_registered_empty_method
    (station : Iris) (before after : list IRoute) (route : IRoute) (args : list arg) :
  (forall x, In x before -> GetName x <> GetName route) ->
  GetMethod route = "" ->
  let r := registered station (before ++ route :: after) in
  In route (lookups r) /\
  RouteByName r (GetName route) = route /\
  UriOf r (GetName route) args =
    ("", Some (ErrRenderRouteNotFound_Format (GetName route))).
Proof.
  intros Hfirst Hempty r.
  assert (Hfound : RouteByName r (GetName route) = route).
  { unfold RouteByName, r. rewrite lookups_registered.
    now apply RouteByNameIn_found. }
  split; [|split].
  - unfold r. rewrite lookups_registered. apply in_or_app. right. now left.
  - exact Hfound.
  - unfold UriOf. rewrite Hfound, Hempty. reflexivity.
Qed.

(** *** The optimize pass *)

Lemma visitAllFrom_any (flag : tree -> bool) (g : Garden) (i : nat) (acc : bool) :
  visitAllFrom i g (fun _ t has => if flag t then true else has) acc
  = existsb flag g || acc.
Proof.
  revert i acc; induction g as [|t g IH]; intros i acc; simpl.
  - reflexivity.
  - rewrite IH. destruct (flag t); simpl.
    + now rewrite !orb_true_r.
    + reflexivity.
Qed.

Lemma router_cors_existsb (r : router) : router_cors r = existsb cors (garden r).
Proof. unfold router_cors, visitAll. rewrite visitAllFrom_any. apply orb_false_r. Qed.

Lemma router_hosts_existsb (r : router) : router_hosts r = existsb hosts (garden r).
Proof. unfold router_hosts, visitAll. rewrite visitAllFrom_any. apply orb_false_r. Qed.

Lemma optimize_latched (r : router) : optimized r = true -> optimize r = r.
Proof. intros H. unfold optimize. now rewrite H. Qed.

Lemma optimized_optimize (r : router) : optimized (optimize r) = true.
Proof.
  unfold optimize. destruct (optimized r) eqn:H; [exact H | reflexivity].
Qed.

Lemma methodMatch_optimize (r : router) :
  optimized r = false ->
  methodMatch (optimize r)
  = if router_cors r then methodMatchCorsFunc else methodMatch r.
Proof.
  intros H. unfold optimize. rewrite H.
  destruct (router_cors r); simpl;
    repeat match goal with
           | |- context [if ?b then _ else _] => destruct b; simpl
           end; reflexivity.
Qed.

Lemma ServeRequest_optimize (r : router) :
  optimized r = false ->
  ServeRequest (optimize r)
  = if router_hosts r then boundServeDomainFunc else ServeRequest r.
Proof.
  intros H. unfold optimize. rewrite H.
  assert (Hh : forall f, router_hosts (set_methodMatch r f) = router_hosts r)
    by reflexivity.
  destruct (router_cors r); rewrite ?Hh;
    destruct (router_hosts r); simpl;
    repeat match goal with
           | |- context [if ?b then _ else _] => destruct b; simpl
           end; reflexivity.
Qed.

Lemma methodMatchCorsFunc_true (m1 reqMethod : string) :
  methodMatchCorsFunc m1 reqMethod = true <-> m1 = reqMethod \/ reqMethod = "OPTIONS".
Proof.
  unfold methodMatchCorsFunc, MethodOptions.
  rewrite orb_true_iff, !String.eqb_eq. reflexivity.
Qed.

Lemma methodMatchFunc_true (m1 m2 : string) :
  methodMatchFunc m1 m2 = true <-> m1 = m2.
Proof. unfold methodMatchFunc. apply String.eqb_eq. Qed.

(** C3: take a router as [newRouter] and the registration of any routes
    leave it, and run [optimize].  If some tree of the garden has its
    [cors] flag set, [methodMatch] answers true exactly when the two
    methods are equal or the request's method is OPTIONS, whatever the
    tree's method; if none has, exactly when the two methods are equal. *)
Theorem optimize_methodMatch
    (station : Iris) (routes : list IRoute) (treeMethod requestMethod : string) :
  let r := registered station routes in
  if existsb cors (garden r)
  then methodMatch (optimize r) treeMethod requestMethod = true
       <-> treeMethod = requestMethod \/ requestMethod = "OPTIONS"
  else methodMatch (optimize r) treeMethod requestMethod = true
       <-> treeMethod = requestMethod.
Proof.
  intros r.
  destruct (fold_addRoute_keeps routes (newRouter station)) as (Hopt & Hmm & _).
  fold (registered station routes) in Hopt, Hmm. fold r in Hopt, Hmm.
  simpl in Hopt, Hmm.
  rewrite (methodMatch_optimize r Hopt), router_cors_existsb, Hmm.
  destruct (existsb cors (garden r)).
  - apply methodMatchCorsFunc_true.
  - apply methodMatchFunc_true.
Qed.

(** C5: whatever the router, [optimize] leaves the latch set, and a
    second call returns the router the first call left, unchanged: the
    bound [methodMatch], [ServeRequest] and [getRequestPath], the
    garden and the registered routes are those of the first call, and
    so after any number of further calls. *)
Theorem optimize_idempotent (r : router) :
  optimized (optimize r) = true /\
  optimize (optimize r) = optimize r /\
  (forall n, Nat.iter n optimize (optimize r) = optimize r).
Proof.
  assert (H2 : optimize (optimize r) = optimize r)
    by (apply optimize_latched, optimized_optimize).
  split; [apply optimized_optimize | split; [exact H2 |]].
  induction n as [|n IH]; simpl.
  - reflexivity.
  - now rewrite IH.
Qed.

(** *** The full domain of a request *)

Lemma prefix_colon (c : ascii) (rest : string) :
  String.prefix ":" (String c rest) = Ascii.eqb c ":".
Proof.
  cbn [String.prefix]. destruct (ascii_dec ":" c) as [<- | Hne].
  - now destruct rest.
  - symmetry. apply Ascii.eqb_neq. congruence.
Qed.

Lemma find_colon (c : ascii) (rest : string) :
  strings.find ":" (String c rest)
  = if Ascii.eqb c ":" then Some 0 else option_map S (strings.find ":" rest).
Proof.
  change (strings.find ":" (String c rest))
    with (if String.prefix ":" (String c rest) then Some 0
          else option_map S (strings.find ":" rest)).
  now rewrite prefix_colon.
Qed.

Lemma find_colon_withoutPort (host : string) :
  match strings.find ":" host with
  | Some i => String.substring 0 i host = withoutPort host
  | None => withoutPort host = host
  end.
Proof.
  induction host as [|c rest IH].
  - reflexivity.
  - rewrite find_colon. simpl withoutPort.
    destruct (Ascii.eqb c ":").
    + reflexivity.
    + destruct (strings.find ":" rest) as [i|]; simpl.
      * now rewrite IH.
      * now rewrite IH.
Qed.

Lemma cut_at_port (host : string) :
  (if negb (strings.Index host ":" =? -1)%Z
   then strings.slice host 0 (strings.Index host ":")
   else host) = withoutPort host.
Proof.
  unfold strings.Index, strings.slice.
  pose proof (find_colon_withoutPort host) as H.
  destruct (strings.find ":" host) as [i|].
  - destruct (Z.eqb_spec (Z.of_nat i) (-1)) as [Hneg|_]; [lia|].
    simpl negb. cbv iota.
    rewrite Nat2Z.id. change (Z.to_nat 0) with 0. now rewrite Nat.sub_0_r.
  - simpl. now symmetry.
Qed.

Lemma requestFulldomain_eq (host bound : string) :
  requestFulldomain host bound
  = if (2 <=? strings.Count host ".")%Z && negb (String.eqb host bound)
    then withoutPort host else "".
Proof.
  unfold requestFulldomain.
  destruct ((2 <=? strings.Count host ".")%Z && negb (String.eqb host bound)).
  - apply cut_at_port.
  - reflexivity.
Qed.

Lemma withoutPort_empty (host : string) :
  withoutPort host = "" <-> host = "" \/ String.prefix ":" host = true.
Proof.
  destruct host as [|c rest].
  - split; [now left | reflexivity].
  - rewrite prefix_colon. cbn [withoutPort].
    destruct (Ascii.eqb c ":").
    + split; [now right | reflexivity].
    + split; [discriminate | intros [H|H]; discriminate].
Qed.

(** C4, amended: the request has a full domain (a subdomain is taken
    to be present) exactly when its host contains at least two dots,
    differs from the host the server is bound to, and does not begin
    with a colon; and a full domain, when there is one, is the host up
    to its first colon, that is the host without its port. *)
Theorem requestFulldomain_present (host bound : string) :
  (requestFulldomain host bound <> ""
   <-> (2 <= strings.Count host ".")%Z /\ host <> bound
       /\ String.prefix ":" host = false)
  /\ (requestFulldomain host bound = ""
      \/ requestFulldomain host bound = withoutPort host).
Proof.
  rewrite requestFulldomain_eq.
  destruct (Z.leb_spec 2 (strings.Count host ".")) as [Hdots|Hdots];
    destruct (String.eqb_spec host bound) as [Heq|Hne]; cbn [andb negb].
  - split; [|now left].
    split; [intros H; now elim H | intros (_ & H & _); now elim H].
  - split; [|now right].
    rewrite withoutPort_empty. split.
    + intros H. repeat split; try assumption.
      destruct (String.prefix ":" host); [elim H; now right | reflexivity].
    + intros (_ & _ & Hp) [-> | Hc]; [|congruence].
      vm_compute in Hdots. now apply Hdots.
  - split; [|now left].
    split; [intros H; now elim H | intros (H & _); lia].
  - split; [|now left].
    split; [intros H; now elim H | intros (H & _); lia].
Qed.

(** *** Running code on a router *)

Lemma served_bind {A B : Type} (m : M A) (f : A -> M B) (r : router) :
  served (bind m f r)
  = match outcome (m r) with
    | Returned a => served (m r) ++ served (f a (after (m r)))
    | Panicked => served (m r)
    end.
Proof. unfold bind. now destruct (outcome (m r)). Qed.

Lemma run_get (r : router) : get r = mkRun (Returned r) r [].
Proof. reflexivity. Qed.

Lemma run_tree_serve (t : tree) (reqCtx : RequestCtx) (path : string) (r : router) :
  tree_serve t reqCtx path r
  = mkRun (Returned (serve t reqCtx path)) r [EvServe t path (serve t reqCtx path)].
Proof. reflexivity. Qed.

Ltac run_step :=
  rewrite served_bind, ?run_get, ?run_tree_serve;
  cbn [outcome after served app].

(** *** The not-found responder *)

Lemma served_notFound (reqCtx : RequestCtx) (r : router) :
  served (notFound reqCtx r) = [answeredNotFound r reqCtx].
Proof.
  unfold notFound, answeredNotFound, pooled, bind, errorPool_Get, ctx_NotFound,
    bind, emit, ret, panic, errorPool_Put.
  destruct (errorPool r) as [|ctx rest]; simpl.
  - destruct (NotFound (Reset (newContext (station r)) reqCtx)); reflexivity.
  - destruct (NotFound (Reset ctx reqCtx)); reflexivity.
Qed.

Lemma notFound_panics (reqCtx : RequestCtx) (r : router) :
  NotFound (Reset (pooled r) reqCtx) = None ->
  outcome (notFound reqCtx r) = Panicked /\
  errorPool (after (notFound reqCtx r)) = tl (errorPool r).
Proof.
  unfold notFound, pooled, bind, errorPool_Get, ctx_NotFound,
    bind, emit, ret, panic, errorPool_Put.
  destruct (errorPool r) as [|ctx rest] eqn:Hpool; simpl; intros ->; simpl;
    rewrite ?Hpool; now split.
Qed.

(** C8, amended: when the error handling that [notFound] invokes
    returns, [notFound] returns too and the context it took (from the
    pool, or a new one when the pool was empty) is put back as the
    handler left it, on top of the contexts that were not taken: the
    pool is no smaller than before. *)
Theorem notFound_returns_context (reqCtx : RequestCtx) (r : router) (ctx' : Context) :
  NotFound (Reset (pooled r) reqCtx) = Some ctx' ->
  outcome (notFound reqCtx r) = Returned tt /\
  errorPool (after (notFound reqCtx r)) = ctx' :: tl (errorPool r) /\
  length (errorPool r) <= length (errorPool (after (notFound reqCtx r))).
Proof.
  unfold notFound, pooled, bind, errorPool_Get, ctx_NotFound,
    bind, emit, ret, panic, errorPool_Put.
  destruct (errorPool r) as [|ctx rest] eqn:Hpool; simpl; intros ->; simpl;
    rewrite ?Hpool; repeat split; simpl; lia.
Qed.

(** *** Dispatch without domains *)

Lemma served_serveFuncLoop (reqCtx : RequestCtx) (method' path : string)
    (trees : Garden) (r : router) :
  served (serveFuncLoop reqCtx method' path trees r)
  = match find (fun t => methodMatch r (method t) method') trees with
    | Some t =>
        if serve t reqCtx path then [EvServe t path true]
        else [EvServe t path false; answeredNotFound r reqCtx]
    | None => [answeredNotFound r reqCtx]
    end.
Proof.
  induction trees as [|t next IH]; cbn [serveFuncLoop find].
  - apply served_notFound.
  - run_step.
    destruct (methodMatch r (method t) method').
    + run_step.
      destruct (serve t reqCtx path); cbn [negb].
      * reflexivity.
      * now rewrite served_notFound.
    + exact IH.
Qed.

(** C2: [serveFunc] looks for the first tree, in the order of the
    list, whose method matches the request's by [methodMatch].  That
    tree alone is asked to serve, with the request's path: when it
    serves, nothing else happens; when it does not, the not-found
    responder runs at once.  When no tree's method matches, only the
    not-found responder runs.  In every case at most one tree is asked. *)
Theorem serveFunc_first_method_match (reqCtx : RequestCtx) (r : router) :
  let path := getRequestPath r reqCtx in
  served (serveFunc reqCtx r)
  = match find (fun t => methodMatch r (method t) (Method reqCtx)) (garden r) with
    | Some t =>
        if serve t reqCtx path then [EvServe t path true]
        else [EvServe t path false; answeredNotFound r reqCtx]
    | None => [answeredNotFound r reqCtx]
    end
  /\ length (filter isServe (served (serveFunc reqCtx r))) <= 1.
Proof.
  intros path.
  assert (H : served (serveFunc reqCtx r)
              = served (serveFuncLoop reqCtx (Method reqCtx) path (garden r) r))
    by (unfold serveFunc; run_step; reflexivity).
  rewrite H, served_serveFuncLoop. split; [reflexivity|].
  destruct (find _ (garden r)) as [t|]; [destruct (serve t reqCtx path)|];
    simpl; lia.
Qed.

(** *** Dispatch with domains *)

Lemma string_app_assoc (a b c : string) : ((a ++ b) ++ c = a ++ (b ++ c))%string.
Proof. induction a as [|x a IH]; simpl; [reflexivity | now rewrite IH]. Qed.

Lemma domainPath_prefix (fulldomain : string) (t : tree) (path : string) :
  domainPath fulldomain t path = (subdomainPrefix fulldomain t ++ path)%string.
Proof.
  unfold domainPath, subdomainPrefix, hostScoped, dynamicSubdomain.
  destruct (hosts t), (String.eqb (domain t) ""), (String.eqb fulldomain "");
    simpl; try reflexivity.
  destruct (String.eqb (domain t) fulldomain); [reflexivity|].
  destruct (strings.Index (domain t) PrefixDynamicSubdomain =? -1)%Z; reflexivity.
Qed.

Lemma served_serveDomainLoop (reqCtx : RequestCtx) (method' fulldomain : string)
    (trees : Garden) (path : string) (r : router) :
  served (serveDomainLoop reqCtx method' fulldomain path trees r)
  = firstMatch reqCtx [answeredNotFound r reqCtx]
      (attemptsOf r method' trees (lookupPaths fulldomain path trees)).
Proof.
  revert path; induction trees as [|t next IH]; intros path;
    cbn [serveDomainLoop lookupPaths].
  - apply served_notFound.
  - run_step. rewrite domainPath_prefix.
    unfold attemptsOf. cbn [combine filter fst].
    fold (attemptsOf r method' next
            (lookupPaths fulldomain (subdomainPrefix fulldomain t ++ path) next)).
    destruct (methodMatch r (method t) method').
    + run_step. cbn [firstMatch].
      destruct (serve t reqCtx (subdomainPrefix fulldomain t ++ path)).
      * reflexivity.
      * cbn [app]. f_equal. apply IH.
    + apply IH.
Qed.

Lemma served_serveDomainFunc (reqCtx : RequestCtx) (r : router) :
  served (serveDomainFunc reqCtx r)
  = served (serveDomainLoop reqCtx (Method reqCtx)
              (requestFulldomain (Host reqCtx) (serverHost (station r)))
              (getRequestPath r reqCtx) (garden r) r).
Proof. unfold serveDomainFunc. run_step. reflexivity. Qed.

Lemma prefixesOf_snoc (fulldomain : string) (seen : Garden) (t : tree) :
  prefixesOf fulldomain (seen ++ [t])
  = (subdomainPrefix fulldomain t ++ prefixesOf fulldomain seen)%string.
Proof. unfold prefixesOf. now rewrite fold_left_app. Qed.

Lemma lookupPaths_from (fulldomain path : string) (trees seen : Garden) :
  lookupPaths fulldomain (prefixesOf fulldomain seen ++ path) trees
  = map (fun i => (prefixesOf fulldomain (seen ++ firstn (S i) trees)%list ++ path)%string)
        (seq 0 (length trees)).
Proof.
  revert seen; induction trees as [|t next IH]; intros seen.
  - reflexivity.
  - cbn [lookupPaths length seq map]. rewrite <- seq_shift, map_map.
    rewrite <- string_app_assoc, <- prefixesOf_snoc.
    f_equal.
    rewrite IH. apply map_ext. intros i.
    now rewrite <- app_assoc.
Qed.

Lemma lookupPaths_closed (fulldomain path : string) (trees : Garden) :
  lookupPaths fulldomain path trees
  = map (lookupPathAt fulldomain path trees) (seq 0 (length trees)).
Proof. exact (lookupPaths_from fulldomain path trees []). Qed.

Lemma firstMatch_outcome (reqCtx : RequestCtx) (miss : list event)
    (attempts : list (tree * string)) :
  (exists before t p after,
      attempts = before ++ (t, p) :: after /\
      (forall a, In a before -> serve (fst a) reqCtx (snd a) = false) /\
      serve t reqCtx p = true /\
      firstMatch reqCtx miss attempts
      = map (fun a => EvServe (fst a) (snd a) false) before ++ [EvServe t p true])
  \/
  ((forall a, In a attempts -> serve (fst a) reqCtx (snd a) = false) /\
   firstMatch reqCtx miss attempts
   = map (fun a => EvServe (fst a) (snd a) false) attempts ++ miss).
Proof.
  induction attempts as [|[t p] rest IH]; cbn [firstMatch].
  - right. split; [intros a [] | reflexivity].
  - destruct (serve t reqCtx p) eqn:Hserve.
    + left. exists [], t, p, rest. repeat split; [intros a [] | exact Hserve].
    + destruct IH as [(before & u & q & after & Hsplit & Hfail & Hu & Hrun)
                     | (Hfail & Hrun)].
      * left. exists ((t, p) :: before), u, q, after. subst rest.
        repeat split; [| exact Hu | now rewrite Hrun].
        intros a [<- | Ha]; [exact Hserve | now apply Hfail].
      * right. split; [| now rewrite Hrun].
        intros a [<- | Ha]; [exact Hserve | now apply Hfail].
Qed.

(** C1: [serveDomainFunc] goes through the trees in the order of the
    list.  Each tree rewrites the lookup path it receives: a
    host-scoped tree, when the request has a full domain, puts the
    full domain in front if it is the tree's domain and the sentinel
    if the tree's domain is the dynamic one; then, if its method
    matches, the tree is asked to serve the lookup path.  The scan goes
    on past the trees that do not serve and stops at the first that
    does: the trees asked before it all failed and none is asked after
    it.  When every tree of matching method has failed, the not-found
    responder runs. *)
Theorem serveDomainFunc_scan (reqCtx : RequestCtx) (r : router) :
  let fulldomain := requestFulldomain (Host reqCtx) (serverHost (station r)) in
  let path := getRequestPath r reqCtx in
  let attempts :=
    attemptsOf r (Method reqCtx) (garden r) (lookupPaths fulldomain path (garden r)) in
  let failed := map (fun a => EvServe (fst a) (snd a) false) in
  served (serveDomainFunc reqCtx r)
  = firstMatch reqCtx [answeredNotFound r reqCtx] attempts
  /\
  ((exists before t p after,
       attempts = before ++ (t, p) :: after /\
       (forall a, In a before -> serve (fst a) reqCtx (snd a) = false) /\
       serve t reqCtx p = true /\
       served (serveDomainFunc reqCtx r) = failed before ++ [EvServe t p true])
   \/
   ((forall a, In a attempts -> serve (fst a) reqCtx (snd a) = false) /\
    served (serveDomainFunc reqCtx r)
    = failed attempts ++ [answeredNotFound r reqCtx])).
Proof.
  intros fulldomain path attempts failed.
  assert (H : served (serveDomainFunc reqCtx r)
              = firstMatch reqCtx [answeredNotFound r reqCtx] attempts)
    by (rewrite served_serveDomainFunc; apply served_serveDomainLoop).
  split; [exact H |].
  rewrite H. apply firstMatch_outcome.
Qed.

(** C9: in the scan of [serveDomainFunc] the tree at position [i] is
    looked up with the request's path behind the prefixes of all the
    trees up to and including it, the latest in front: the prefix a
    tree puts on stays for every later tree, whether or not the
    method of the tree that put it matched, and a later host-scoped
    tree puts its own in front of it. *)
Theorem serveDomainFunc_path_accumulates (reqCtx : RequestCtx) (r : router) :
  let fulldomain := requestFulldomain (Host reqCtx) (serverHost (station r)) in
  let path := getRequestPath r reqCtx in
  served (serveDomainFunc reqCtx r)
  = firstMatch reqCtx [answeredNotFound r reqCtx]
      (attemptsOf r (Method reqCtx) (garden r)
         (map (fun i => (prefixesOf fulldomain (firstn (S i) (garden r)) ++ path)%string)
              (seq 0 (length (garden r))))).
Proof.
  intros fulldomain path.
  rewrite served_serveDomainFunc, served_serveDomainLoop.
  now rewrite lookupPaths_closed.
Qed.

End Facts.

(** ** The router at work *)

Example parse_profile :
  Route.substitute true "/profile/:username/friends/:friendId"
    [ArgString "kataras"; ArgInt 8] = "/profile/kataras/friends/8".
Proof. reflexivity. Qed.

Example UriOf_profile :
  UriOf (E := Demo.quiet)
    (registered Demo.local
       [Route.asIRoute
          {| Route.name := "profile"; Route.method := "GET";
             Route.path := "/profile/:username/friends/:friendId";
             Route.domain := ""; Route.cors := false |}])
    "profile" [ArgString "kataras"; ArgInt 8]
  = ("/profile/kataras/friends/8", None).
Proof. reflexivity. Qed.

Example UriOf_missing :
  UriOf (E := Demo.quiet) (registered Demo.local [Demo.home]) "missing" []
  = ("", Some (ErrRenderRouteNotFound_Format "missing")).
Proof. reflexivity. Qed.

Example RouteByName_case_sensitive :
  RouteByName (E := Demo.quiet) (registered Demo.local [Demo.home]) "Home"
  = Route.asIRoute Route.zero.
Proof. reflexivity. Qed.

Example optimize_with_cors :
  let r := optimize (E := Demo.quiet) (registered Demo.local [Demo.home; Demo.shared]) in
  methodMatch r "GET" "OPTIONS" = true /\ methodMatch r "GET" "POST" = false.
Proof. split; reflexivity. Qed.

Example optimize_without_cors :
  let r := optimize (E := Demo.quiet) (registered Demo.local [Demo.home]) in
  methodMatch r "GET" "OPTIONS" = false /\ methodMatch r "GET" "GET" = true.
Proof. split; reflexivity. Qed.

(** A host with a port and a subdomain, and the bound host itself. *)
Example requestFulldomain_examples :
  requestFulldomain "blog.example.com:8080" "127.0.0.1:8080" = "blog.example.com" /\
  requestFulldomain "127.0.0.1:8080" "127.0.0.1:8080" = "" /\
  requestFulldomain "example.com" "127.0.0.1:8080" = "".
Proof. repeat split; reflexivity. Qed.

(** C4, as first stated, fails: a host that begins with a colon and has
    two dots differs from the bound host, and yet its full domain is
    empty, which the scan takes for no subdomain. *)
Lemma requestFulldomain_leading_colon :
  ~ (requestFulldomain ":8080.example.com" "127.0.0.1:8080" <> ""
     <-> (2 <= strings.Count ":8080.example.com" ".")%Z
         /\ ":8080.example.com" <> "127.0.0.1:8080").
Proof.
  intros [_ H]. apply H.
  - split; [vm_compute; discriminate | discriminate].
  - reflexivity.
Qed.

(** C8, as first stated, fails: when the error handler panics, the
    context taken from the pool is not in the pool afterwards, and the
    pool is one context short. *)
Lemma notFound_panic_leaves_pool_short :
  let r := Demo.stocked Demo.panicking None in
  let x := notFound (Demo.request "GET" "127.0.0.1:8080" "/missing") r in
  outcome x = Panicked /\
  ~ length (errorPool r) <= length (errorPool (after x)) /\
  errorPool (after x) = [].
Proof.
  repeat split. cbv. intros H. inversion H.
Qed.

Lemma notFound_returns_context_witness :
  let E := Demo.quiet in
  let req := Demo.request "GET" "127.0.0.1:8080" "/missing" in
  let r := Demo.stocked E None in
  NotFound (Reset (pooled r) req) = Some (Some req) /\
  outcome (notFound req r) = Returned tt /\
  errorPool (after (notFound req r)) = [Some req] /\
  length (errorPool r) <= length (errorPool (after (notFound req r))).
Proof.
  intros E req r. split.
  - reflexivity.
  - apply (notFound_returns_context (E := E) req r (Some req)). reflexivity.
Defined.

Lemma UriOf_registered_empty_method_witness :
  let r := registered (E := Demo.quiet) Demo.local [Demo.home; Demo.nameless] in
  GetMethod Demo.nameless = "" /\
  In Demo.nameless (lookups r) /\
  RouteByName r "profile" = Demo.nameless /\
  UriOf r "profile" [ArgString "kataras"]
  = ("", Some (ErrRenderRouteNotFound_Format "profile")).
Proof.
  intros r. split.
  - reflexivity.
  - apply (UriOf_registered_empty_method (E := Demo.quiet) Demo.local
             [Demo.home] [] Demo.nameless [ArgString "kataras"]).
    + intros x [<- | []]. simpl. discriminate.
    + reflexivity.
Defined.

(** A POST to the subdomain: the GET tree of the subdomain, whose method
    does not match, has already put the full domain in front of the
    path; the POST tree of the subdomain puts it again and misses its
    own route; the POST tree of no domain is then asked for the doubly
    prefixed path. *)
Example serveDomainFunc_double_prefix :
  served (serveDomainFunc (Demo.request "POST" "blog.example.com" "/post") Demo.blogRouter)
  = [EvServe Demo.blogPost "blog.example.comblog.example.com/post" false;
     EvServe Demo.plainPost "blog.example.comblog.example.com/post" true].
Proof. reflexivity. Qed.

(** Without domains the scan stops at the first tree of the method. *)
Example serveFunc_stops_at_first :
  let first := Demo.staticTree "GET" "" false false ["/a"] in
  let second := Demo.staticTree "GET" "" false false ["/b"] in
  let r := {| station := Demo.local; garden := [first; second];
              methodMatch := methodMatchFunc;
              getRequestPath := getRequestPathDefault;
              lookups := []; ServeRequest := boundServeFunc;
              errorPool := []; optimized := true |} in
  served (serveFunc (E := Demo.quiet) (Demo.request "GET" "127.0.0.1:8080" "/b") r)
  = [EvServe first "/b" false;
     EvNotFound (E := Demo.quiet) (Some (Demo.request "GET" "127.0.0.1:8080" "/b"))].
Proof. reflexivity. Qed.

(** ** Further facts *)

Section Further.

Context {E : Engine}.

Lemma outcome_bind {A B : Type} (m : M A) (f : A -> M B) (r : router) :
  outcome (bind m f r)
  = match outcome (m r) with
    | Returned a => outcome (f a (after (m r)))
    | Panicked => Panicked
    end.
Proof. unfold bind. now destruct (outcome (m r)). Qed.

Lemma after_bind {A B : Type} (m : M A) (f : A -> M B) (r : router) :
  after (bind m f r)
  = match outcome (m r) with
    | Returned a => after (f a (after (m r)))
    | Panicked => after (m r)
    end.
Proof. unfold bind. now destruct (outcome (m r)). Qed.

Lemma events_bind {A B : Type} (m : M A) (f : A -> M B) (r : router) :
  served (bind m f r)
  = match outcome (m r) with
    | Returned a => served (m r) ++ served (f a (after (m r)))
    | Panicked => served (m r)
    end.
Proof. unfold bind. now destruct (outcome (m r)). Qed.

Ltac step :=
  repeat progress
    (rewrite ?events_bind, ?outcome_bind, ?after_bind, ?run_get, ?run_tree_serve;
     cbn [ret outcome after served app]).

Lemma set_errorPool_same (r : router) : set_errorPool r (errorPool r) = r.
Proof. now destruct r. Qed.

Lemma notFound_events (reqCtx : RequestCtx) (r : router) :
  served (notFound reqCtx r) = [answeredNotFound r reqCtx].
Proof.
  unfold notFound, answeredNotFound, pooled, bind, errorPool_Get, ctx_NotFound,
    bind, emit, ret, panic, errorPool_Put.
  destruct (errorPool r) as [|ctx rest]; simpl.
  - destruct (NotFound (Reset (newContext (station r)) reqCtx)); reflexivity.
  - destruct (NotFound (Reset ctx reqCtx)); reflexivity.
Qed.

Lemma notFound_run (reqCtx : RequestCtx) (r : router) :
  outcome (notFound reqCtx r)
  = match NotFound (Reset (pooled r) reqCtx) with
    | Some _ => Returned tt
    | None => Panicked
    end
  /\ after (notFound reqCtx r)
     = set_errorPool r
         match NotFound (Reset (pooled r) reqCtx) with
         | Some ctx' => ctx' :: tl (errorPool r)
         | None => tl (errorPool r)
         end.
Proof.
  unfold notFound, pooled, bind, errorPool_Get, ctx_NotFound,
    bind, emit, ret, panic, errorPool_Put.
  destruct (errorPool r) as [|ctx rest] eqn:Hpool; simpl.
  - destruct (NotFound (Reset (newContext (station r)) reqCtx)); simpl;
      rewrite ?Hpool; split; try reflexivity.
    rewrite <- Hpool. now rewrite set_errorPool_same.
  - destruct (NotFound (Reset ctx reqCtx)); simpl; now split.
Qed.

Lemma dispatched_failed_first (r : router) (reqCtx : RequestCtx)
    (t : tree) (p : string) (x y : run unit) :
  dispatched r reqCtx y ->
  served x = EvServe t p false :: served y ->
  outcome x = outcome y ->
  after x = after y ->
  dispatched r reqCtx x.
Proof.
  intros [failed [(u & q & Hu & Hs & Ho & Ha) | (Hs & Ho & Ha)]] Hsx Hox Hax;
    exists ((t, p) :: failed); [left; exists u, q | right];
    rewrite Hsx, Hox, Hax, Hs; repeat split; assumption.
Qed.

Lemma dispatched_notFound (r : router) (reqCtx : RequestCtx) :
  dispatched r reqCtx (notFound reqCtx r).
Proof.
  exists []. right. rewrite notFound_events. repeat split.
Qed.

Lemma serveFuncLoop_dispatched (reqCtx : RequestCtx) (method' path : string)
    (trees : Garden) (r : router) :
  dispatched r reqCtx (serveFuncLoop reqCtx method' path trees r).
Proof.
  induction trees as [|t next IH]; cbn [serveFuncLoop].
  - apply dispatched_notFound.
  - destruct (methodMatch r (method t) method') eqn:Hmm.
    + destruct (serve t reqCtx path) eqn:Hserve.
      * exists []. left. exists t, path. split; [exact Hserve |].
        step. rewrite Hmm. step. rewrite Hserve. cbn. repeat split.
      * apply (dispatched_failed_first r reqCtx t path _ (notFound reqCtx r));
          [apply dispatched_notFound | | |]; step; rewrite Hmm; step;
          rewrite Hserve; reflexivity.
    + destruct IH as [failed IH]. exists failed.
      step. rewrite Hmm. exact IH.
Qed.

Lemma serveDomainLoop_dispatched (reqCtx : RequestCtx) (method' fulldomain : string)
    (trees : Garden) (path : string) (r : router) :
  dispatched r reqCtx (serveDomainLoop reqCtx method' fulldomain path trees r).
Proof.
  revert path; induction trees as [|t next IH]; intros path; cbn [serveDomainLoop].
  - apply dispatched_notFound.
  - set (p := domainPath fulldomain t path).
    destruct (methodMatch r (method t) method') eqn:Hmm.
    + destruct (serve t reqCtx p) eqn:Hserve.
      * exists []. left. exists t, p. split; [exact Hserve |].
        step. rewrite Hmm. step. fold p. rewrite Hserve. cbn. repeat split.
      * apply (dispatched_failed_first r reqCtx t p _
                 (serveDomainLoop reqCtx method' fulldomain p next r));
          [apply IH | | |]; step; rewrite Hmm; step; fold p;
          rewrite Hserve; reflexivity.
    + destruct (IH p) as [failed IHp]. exists failed.
      step. rewrite Hmm. exact IHp.
Qed.

(** *** Registration and the lookup by name *)

Lemma RouteByNameIn_app (l l' : list IRoute) (routeName : string) :
  RouteByNameIn (l ++ l') routeName
  = if existsb (fun x => String.eqb (GetName x) routeName) l
    then RouteByNameIn l routeName
    else RouteByNameIn l' routeName.
Proof.
  induction l as [|x l IH]; simpl.
  - reflexivity.
  - destruct (String.eqb (GetName x) routeName); [reflexivity | exact IH].
Qed.

Lemma no_route_named (l : list IRoute) (routeName : string) :
  (forall x, In x l -> GetName x <> routeName) ->
  existsb (fun x => String.eqb (GetName x) routeName) l = false.
Proof.
  intros H. destruct (existsb _ l) eqn:Hex; [|reflexivity].
  apply existsb_exists in Hex. destruct Hex as (x & Hin & Heq).
  apply String.eqb_eq in Heq. now elim (H x Hin).
Qed.

Lemma some_route_named (l : list IRoute) (routeName : string) :
  (exists x, In x l /\ GetName x = routeName) ->
  existsb (fun x => String.eqb (GetName x) routeName) l = true.
Proof.
  intros (x & Hin & Heq). apply existsb_exists. exists x.
  split; [exact Hin | now apply String.eqb_eq].
Qed.

(** X1: a route registered under a name that no registered route has is
    the route [RouteByName] returns for that name from then on. *)
Theorem RouteByName_addRoute_fresh (r : router) (route : IRoute) :
  (forall x, In x (lookups r) -> GetName x <> GetName route) ->
  RouteByName (addRoute r route) (GetName route) = route.
Proof.
  intros Hfresh. unfold RouteByName. cbn [addRoute lookups].
  rewrite RouteByNameIn_app, (no_route_named _ _ Hfresh).
  cbn [RouteByNameIn]. now rewrite String.eqb_refl.
Qed.

(** X2: registering a route changes the answer of [RouteByName] for no
    other name, and for no name that a registered route already has: of
    two routes of one name, the one registered first is the one found. *)
Theorem RouteByName_addRoute_kept (r : router) (route : IRoute) (routeName : string) :
  routeName <> GetName route \/ (exists x, In x (lookups r) /\ GetName x = routeName) ->
  RouteByName (addRoute r route) routeName = RouteByName r routeName.
Proof.
  intros H. unfold RouteByName. cbn [addRoute lookups].
  rewrite RouteByNameIn_app.
  destruct (existsb (fun x => String.eqb (GetName x) routeName) (lookups r)) eqn:Hex.
  - reflexivity.
  - destruct H as [Hne | Hsome].
    + cbn [RouteByNameIn].
      destruct (String.eqb_spec (GetName route) routeName) as [Heq|_];
        [now elim Hne |].
      destruct (RouteByNameIn_scan (lookups r) routeName)
        as [(before & x & after & Hl & Hn & _) | (_ & Hzero)].
      * rewrite some_route_named in Hex; [discriminate |].
        exists x. split; [rewrite Hl; apply in_or_app; right; now left | exact Hn].
      * now rewrite Hzero.
    + now rewrite (some_route_named _ _ Hsome) in Hex.
Qed.

(** X3: for a registered route with a method, first of its name,
    [UriOf] on its name returns what its [ParseURI] makes of the
    arguments, and no error. *)
Theorem UriOf_registered
    (station : Iris) (before after : list IRoute) (route : IRoute) (args : list arg) :
  (forall x, In x before -> GetName x <> GetName route) ->
  GetMethod route <> "" ->
  UriOf (registered station (before ++ route :: after)) (GetName route) args
  = (ParseURI route args, None).
Proof.
  intros Hfirst Hmethod. unfold UriOf, RouteByName.
  rewrite lookups_registered, (RouteByNameIn_found before after route Hfirst).
  destruct (String.eqb_spec (GetMethod route) "") as [Heq|_];
    [now elim Hmethod | reflexivity].
Qed.

(** *** The flags of the garden and the optimize pass *)

(** X4: [cors] answers true exactly when some tree of the garden has its
    [cors] field set, and [hosts] exactly when some tree has its [hosts]
    field set. *)
Theorem router_flags (r : router) :
  (router_cors r = true <-> exists t, In t (garden r) /\ cors t = true) /\
  (router_hosts r = true <-> exists t, In t (garden r) /\ hosts t = true).
Proof.
  rewrite router_cors_existsb, router_hosts_existsb.
  split; apply existsb_exists.
Qed.

Lemma fold_addRoute_getRequestPath (routes : list IRoute) (r : router) :
  getRequestPath (fold_left addRoute routes r) = getRequestPath r.
Proof.
  revert r; induction routes as [|route routes IH]; intros r; simpl.
  - reflexivity.
  - now rewrite IH.
Qed.

Lemma optimize_fields (r : router) :
  optimized r = false ->
  let cfg := config (station r) in
  getRequestPath (optimize r)
  = (if DisablePathEscape cfg then fun reqCtx => RequestURI reqCtx
     else getRequestPath r)
  /\ lookups (optimize r)
     = (if Profile cfg && negb (String.eqb (ProfilePath cfg) "")
        then lookups r ++
             [Route.asIRoute
                {| Route.name := ""; Route.method := MethodGet;
                   Route.path := ProfilePath cfg ++ "/*action";
                   Route.domain := ""; Route.cors := false |}]
        else lookups r)
  /\ garden (optimize r)
     = (if Profile cfg && negb (String.eqb (ProfilePath cfg) "")
        then Plant (station r) (garden r)
               (Route.asIRoute
                  {| Route.name := ""; Route.method := MethodGet;
                     Route.path := ProfilePath cfg ++ "/*action";
                     Route.domain := ""; Route.cors := false |})
        else garden r)
  /\ station (optimize r) = station r
  /\ errorPool (optimize r) = errorPool r.
Proof.
  intros H cfg. subst cfg.
  destruct r as [st g mm grp lk sr pool opt]. cbn in H. subst opt.
  unfold optimize, router_cors, router_hosts.
  cbn -[visitAll String.append].
  destruct (visitAll g (fun _ t has => if cors t then true else has) false);
    cbn -[visitAll String.append];
    destruct (visitAll g (fun _ t has => if hosts t then true else has) false);
    cbn -[visitAll String.append];
    destruct (DisablePathEscape (config st));
    cbn -[visitAll String.append];
    destruct (Profile (config st) && negb (String.eqb (ProfilePath (config st)) ""));
    cbn -[visitAll String.append]; repeat split.
Qed.

(** X5: after [optimize] on a router as [newRouter] and registrations
    leave it, the [ServeRequest] field is bound to [serveDomainFunc] when
    some tree of the garden has its [hosts] field set, and stays bound
    to [serveFunc] otherwise. *)
Theorem optimize_ServeRequest (station : Iris) (routes : list IRoute) :
  let r := registered station routes in
  ServeRequest (optimize r)
  = if existsb hosts (garden r) then boundServeDomainFunc else boundServeFunc.
Proof.
  intros r.
  destruct (fold_addRoute_keeps routes (newRouter station)) as (Hopt & _ & Hsr & _).
  fold (registered station routes) in Hopt, Hsr. fold r in Hopt, Hsr.
  cbn in Hopt, Hsr.
  now rewrite (ServeRequest_optimize r Hopt), router_hosts_existsb, Hsr.
Qed.

(** X6: after [optimize] on such a router, the request path is the raw
    request URI when [DisablePathEscape] is configured and the decoded
    path otherwise. *)
Theorem optimize_getRequestPath
    (station : Iris) (routes : list IRoute) (reqCtx : RequestCtx) :
  getRequestPath (optimize (registered station routes)) reqCtx
  = if DisablePathEscape (config station) then RequestURI reqCtx else Path reqCtx.
Proof.
  destruct (fold_addRoute_keeps routes (newRouter station)) as (Hopt & _ & _ & Hst).
  fold (registered station routes) in Hopt, Hst. cbn in Hopt, Hst.
  destruct (optimize_fields (registered station routes) Hopt) as (Hpath & _).
  rewrite Hpath, Hst. unfold registered at 1.
  rewrite fold_addRoute_getRequestPath. cbn [getRequestPath newRouter].
  now destruct (DisablePathEscape (config station)).
Qed.

(** X7: the first run of [optimize] registers one more route, a GET
    route on the profile path followed by [/*action], exactly when
    profiling is on and the profile path is not empty; otherwise it
    leaves the registered routes and the garden as they are.  The pool
    is never touched. *)
Theorem optimize_profile_route (r : router) :
  optimized r = false ->
  let cfg := config (station r) in
  (if Profile cfg && negb (String.eqb (ProfilePath cfg) "")
   then exists route,
       GetMethod route = "GET" /\
       GetPath route = (ProfilePath cfg ++ "/*action")%string /\
       lookups (optimize r) = lookups r ++ [route] /\
       garden (optimize r) = Plant (station r) (garden r) route
   else lookups (optimize r) = lookups r /\ garden (optimize r) = garden r)
  /\ errorPool (optimize r) = errorPool r.
Proof.
  intros H cfg.
  destruct (optimize_fields r H) as (_ & Hl & Hg & _ & Hp). fold cfg in Hl, Hg.
  split; [|exact Hp].
  destruct (Profile cfg && negb (String.eqb (ProfilePath cfg) "")).
  - eexists. repeat split; [| | exact Hl | exact Hg]; reflexivity.
  - now split.
Qed.

(** X8: once [optimize] has run, a route registered later changes none
    of the bound strategies, and running [optimize] again changes
    nothing: the flags of the new route's tree are never looked at. *)
Theorem addRoute_after_optimize (r : router) (route : IRoute) :
  let r' := addRoute (optimize r) route in
  optimize r' = r' /\
  methodMatch r' = methodMatch (optimize r) /\
  ServeRequest r' = ServeRequest (optimize r) /\
  getRequestPath r' = getRequestPath (optimize r).
Proof.
  intros r'. repeat split.
  apply optimize_latched. unfold r'. cbn [addRoute optimized].
  apply optimized_optimize.
Qed.

(** *** How a dispatch ends *)

Lemma serveFunc_dispatched (reqCtx : RequestCtx) (r : router) :
  dispatched r reqCtx (serveFunc reqCtx r).
Proof.
  destruct (serveFuncLoop_dispatched reqCtx (Method reqCtx)
              (getRequestPath r reqCtx) (garden r) r) as [failed H].
  exists failed. unfold serveFunc. step. exact H.
Qed.

Lemma serveDomainFunc_dispatched (reqCtx : RequestCtx) (r : router) :
  dispatched r reqCtx (serveDomainFunc reqCtx r).
Proof.
  destruct (serveDomainLoop_dispatched reqCtx (Method reqCtx)
              (requestFulldomain (Host reqCtx) (serverHost (station r)))
              (garden r) (getRequestPath r reqCtx) r) as [failed H].
  exists failed. unfold serveDomainFunc. step. exact H.
Qed.

(** X9: whichever dispatcher [ServeRequest] is bound to, a dispatch is
    a run of failed attempts followed by exactly one answer.  Either a
    tree serves: the dispatch returns and leaves the router as it was.
    Or the not-found responder runs, once and last, on the router as
    the request found it, and the dispatch ends as the responder does. *)
Theorem ServeRequest_dispatched (reqCtx : RequestCtx) (r : router) :
  dispatched r reqCtx (callServeRequest reqCtx r).
Proof.
  assert (H : dispatched r reqCtx
                (match ServeRequest r with
                 | boundServeFunc => serveFunc reqCtx
                 | boundServeDomainFunc => serveDomainFunc reqCtx
                 end r))
    by (destruct (ServeRequest r);
        [apply serveFunc_dispatched | apply serveDomainFunc_dispatched]).
  destruct H as [failed H]. exists failed.
  unfold callServeRequest. step. exact H.
Qed.



(** X11: a dispatch changes nothing of the router but its pool: the
    station, the garden, the registered routes, the three bound
    strategies and the latch are after the dispatch what they were
    before, and the pool has gained or lost at most one context. *)
Theorem ServeRequest_frame (reqCtx : RequestCtx) (r : router) :
  let r' := after (callServeRequest reqCtx r) in
  station r' = station r /\
  garden r' = garden r /\
  methodMatch r' = methodMatch r /\
  getRequestPath r' = getRequestPath r /\
  lookups r' = lookups r /\
  ServeRequest r' = ServeRequest r /\
  optimized r' = optimized r /\
  length (errorPool r) - 1 <= length (errorPool r') <= Nat.max 1 (length (errorPool r)).
Proof.
  intros r'. unfold r'.
  destruct (ServeRequest_dispatched reqCtx r)
    as [failed [(t & p & _ & _ & _ & Ha) | (_ & _ & Ha)]];
    rewrite Ha.
  - repeat split; lia.
  - rewrite (proj2 (notFound_run reqCtx r)). cbn [set_errorPool station garden
      methodMatch getRequestPath lookups ServeRequest optimized errorPool].
    repeat split;
      destruct (NotFound (Reset (pooled r) reqCtx)), (errorPool r); simpl; lia.
Qed.

(** X12: when the method of no tree of the garden matches the
    request's, no tree is asked and the not-found responder runs,
    whichever dispatcher is bound; an empty garden is the first case. *)
Theorem ServeRequest_no_method_match (reqCtx : RequestCtx) (r : router) :
  (forall t, In t (garden r) -> methodMatch r (method t) (Method reqCtx) = false) ->
  served (callServeRequest reqCtx r) = [answeredNotFound r reqCtx].
Proof.
  intros Hnone. unfold callServeRequest. step.
  destruct (ServeRequest r).
  - unfold serveFunc. step. rewrite served_serveFuncLoop.
    destruct (find _ (garden r)) as [t|] eqn:Hfind; [|reflexivity].
    apply find_some in Hfind. destruct Hfind as [Hin Hmm].
    rewrite (Hnone t Hin) in Hmm. discriminate.
  - rewrite served_serveDomainFunc, served_serveDomainLoop.
    unfold attemptsOf.
    set (paths := lookupPaths _ _ _). clearbody paths.
    assert (Hempty : forall (trees : Garden) (ps : list string),
               (forall t, In t trees ->
                          methodMatch r (method t) (Method reqCtx) = false) ->
               filter (fun a => methodMatch r (method (fst a)) (Method reqCtx))
                      (combine trees ps) = []).
    { induction trees as [|t trees IH]; intros [|q ps] Hall; try reflexivity.
      cbn [combine filter fst]. rewrite (Hall t (or_introl eq_refl)).
      apply IH. intros u Hu. apply Hall. now right. }
    now rewrite (Hempty _ paths Hnone).
Qed.

(** X13: when the method match is the CORS one, [serveFunc] hands an
    OPTIONS request to the first tree of the garden, whatever its
    method, and to no other: if that tree has no route for the path the
    request is answered not-found. *)
Theorem serveFunc_cors_options (reqCtx : RequestCtx) (r : router)
    (t : tree) (rest : Garden) :
  methodMatch r = methodMatchCorsFunc ->
  Method reqCtx = "OPTIONS" ->
  garden r = t :: rest ->
  let path := getRequestPath r reqCtx in
  served (serveFunc reqCtx r)
  = if serve t reqCtx path then [EvServe t path true]
    else [EvServe t path false; answeredNotFound r reqCtx].
Proof.
  intros Hmm Hmethod Hgarden path.
  unfold serveFunc. step. rewrite served_serveFuncLoop.
  fold path. rewrite Hgarden, Hmm, Hmethod. cbn [find].
  unfold methodMatchCorsFunc, MethodOptions.
  now rewrite String.eqb_refl, orb_true_r.
Qed.

(** *** Domain dispatch when nothing is put in front of the path *)

Lemma subdomainPrefix_none (t : tree) : subdomainPrefix "" t = "".
Proof.
  unfold subdomainPrefix. cbn [String.eqb negb]. now rewrite andb_false_r.
Qed.

Lemma lookupPaths_no_fulldomain (path : string) (trees : Garden) :
  lookupPaths "" path trees = map (fun _ => path) trees.
Proof.
  induction trees as [|t next IH]; cbn [lookupPaths map].
  - reflexivity.
  - rewrite subdomainPrefix_none. cbn [String.append]. now rewrite IH.
Qed.

Lemma serveDomainLoop_no_fulldomain (reqCtx : RequestCtx) (method' path : string)
    (trees : Garden) (r : router) :
  served (serveDomainLoop reqCtx method' "" path trees r)
  = firstMatch reqCtx [answeredNotFound r reqCtx]
      (map (fun t => (t, path))
           (filter (fun t => methodMatch r (method t) method') trees)).
Proof.
  rewrite served_serveDomainLoop, lookupPaths_no_fulldomain. f_equal.
  unfold attemptsOf.
  induction trees as [|t next IH]; cbn [map combine filter fst].
  - reflexivity.
  - destruct (methodMatch r (method t) method'); cbn [map]; now rewrite IH.
Qed.

(** X14: for a request with no full domain (its host has fewer than two
    dots, is the bound host, or begins with a colon), [serveDomainFunc]
    looks every tree up with the request's path as it came: the trees of
    matching method are tried in order with that one path. *)
Theorem serveDomainFunc_no_fulldomain (reqCtx : RequestCtx) (r : router) :
  requestFulldomain (Host reqCtx) (serverHost (station r)) = "" ->
  let path := getRequestPath r reqCtx in
  served (serveDomainFunc reqCtx r)
  = firstMatch reqCtx [answeredNotFound r reqCtx]
      (map (fun t => (t, path))
           (filter (fun t => methodMatch r (method t) (Method reqCtx)) (garden r))).
Proof.
  intros Hfd path.
  rewrite served_serveDomainFunc, Hfd. apply serveDomainLoop_no_fulldomain.
Qed.

(** X15: for a request with no full domain, whatever [serveFunc]
    serves [serveDomainFunc] serves too, by the same tree and with the
    same events. *)
Theorem serveDomainFunc_serves_what_serveFunc_serves
    (reqCtx : RequestCtx) (r : router) (t : tree) (p : string) :
  requestFulldomain (Host reqCtx) (serverHost (station r)) = "" ->
  served (serveFunc reqCtx r) = [EvServe t p true] ->
  served (serveDomainFunc reqCtx r) = [EvServe t p true].
Proof.
  intros Hfd. rewrite served_serveDomainFunc, Hfd, serveDomainLoop_no_fulldomain.
  unfold serveFunc. step. rewrite served_serveFuncLoop.
  set (path := getRequestPath r reqCtx).
  induction (garden r) as [|u next IH]; cbn [find filter map firstMatch].
  - intros H. exact H.
  - destruct (methodMatch r (method u) (Method reqCtx)).
    + cbn [map firstMatch]. destruct (serve u reqCtx path).
      * intros H. exact H.
      * intros H. discriminate H.
    + exact IH.
Qed.

(** *** The shape of the full domain *)

Lemma prefix_refl_cons (c : ascii) (a b : string) :
  String.prefix a b = true -> String.prefix (String c a) (String c b) = true.
Proof.
  intros H. cbn [String.prefix].
  destruct (ascii_dec c c) as [_|Hne]; [exact H | now elim Hne].
Qed.

Lemma withoutPort_prefix (host : string) :
  String.prefix (withoutPort host) host = true.
Proof.
  induction host as [|c rest IH]; cbn [withoutPort].
  - reflexivity.
  - destruct (Ascii.eqb c ":"); [reflexivity | now apply prefix_refl_cons].
Qed.

Lemma withoutPort_no_colon (host : string) :
  strings.find ":" (withoutPort host) = None.
Proof.
  induction host as [|c rest IH]; cbn [withoutPort].
  - reflexivity.
  - destruct (Ascii.eqb c ":") eqn:Hc; [reflexivity |].
    now rewrite find_colon, Hc, IH.
Qed.

(** X16: the full domain of a request is always a prefix of its host
    and never contains a colon; and the host the server is bound to has
    no full domain. *)
Theorem requestFulldomain_shape (host bound : string) :
  String.prefix (requestFulldomain host bound) host = true /\
  strings.Index (requestFulldomain host bound) ":" = (-1)%Z /\
  requestFulldomain bound bound = "".
Proof.
  rewrite !requestFulldomain_eq, String.eqb_refl, andb_false_r.
  destruct ((2 <=? strings.Count host ".")%Z && negb (String.eqb host bound)).
  - repeat split; [apply withoutPort_prefix |].
    unfold strings.Index. now rewrite withoutPort_no_colon.
  - repeat split. now destruct host.
Qed.

(** *** Trees registered later *)

(** X17: in [serveFunc]'s scan, as soon as the method of some tree
    matches, trees appended to the list change nothing of the
    dispatch. *)
Theorem serveFuncLoop_later_trees
    (reqCtx : RequestCtx) (method' path : string) (trees later : Garden) (r : router) :
  (exists t, In t trees /\ methodMatch r (method t) method' = true) ->
  served (serveFuncLoop reqCtx method' path (trees ++ later) r)
  = served (serveFuncLoop reqCtx method' path trees r).
Proof.
  intros (t & Hin & Hmm). rewrite !served_serveFuncLoop.
  induction trees as [|u next IH]; [destruct Hin |].
  cbn [app find].
  destruct (methodMatch r (method u) method') eqn:Hu; [reflexivity |].
  apply IH. destruct Hin as [<- | Hin]; [congruence | exact Hin].
Qed.

(** X18: in [serveDomainFunc]'s scan, when some tree serves, trees
    appended to the list change nothing of the dispatch. *)
Theorem serveDomainLoop_later_trees
    (reqCtx : RequestCtx) (method' fulldomain path : string)
    (trees later : Garden) (r : router) :
  (exists t p, In (EvServe t p true)
                  (served (serveDomainLoop reqCtx method' fulldomain path trees r))) ->
  served (serveDomainLoop reqCtx method' fulldomain path (trees ++ later) r)
  = served (serveDomainLoop reqCtx method' fulldomain path trees r).
Proof.
  revert path. induction trees as [|u next IH]; intros path (t & p & Hin).
  - cbn [serveDomainLoop] in Hin. rewrite notFound_events in Hin.
    destruct Hin as [Hin | []]. discriminate Hin.
  - revert Hin. cbn [app serveDomainLoop]. step.
    destruct (methodMatch r (method u) method').
    + step. destruct (serve u reqCtx (domainPath fulldomain u path)).
      * reflexivity.
      * cbn [app]. intros [Hin | Hin]; [discriminate Hin |].
        f_equal. apply IH. now exists t, p.
    + intros Hin. apply IH. now exists t, p.
Qed.

End Further.

(** ** Facts about the command line tool *)

Section ToolFacts.

Variable m : Tool.Machine.

Lemma get_in_range (s : string) (n : nat) :
  n < String.length s -> exists c, String.get n s = Some c.
Proof.
  revert n; induction s as [|a s IH]; intros n Hn; simpl in Hn; [lia |].
  destruct n as [|n]; simpl.
  - now exists a.
  - apply IH. lia.
Qed.

Lemma at_last (s : string) :
  s <> "" -> exists c, strings.at_ s (strings.len s - 1) = Some c.
Proof.
  intros Hs. unfold strings.at_, strings.len.
  assert (Hlen : 1 <= String.length s) by (destruct s; [now elim Hs | simpl; lia]).
  destruct (Z.leb_spec 0 (Z.of_nat (String.length s) - 1)); [|lia].
  apply get_in_range. lia.
Qed.

Lemma last_byte_split (s : string) (a c : ascii) :
  String.get (String.length s) (String a s) = Some c ->
  String a s
  = (String.substring 0 (String.length s) (String a s) ++ String c "")%string.
Proof.
  revert a; induction s as [|b s IH]; intros a Hget.
  - simpl in Hget. injection Hget as ->. reflexivity.
  - cbn [String.length String.get] in Hget.
    cbn [String.length String.substring String.append]. f_equal.
    now apply IH.
Qed.

Lemma at_last_split (s : string) (c : ascii) :
  strings.at_ s (strings.len s - 1) = Some c ->
  s = (String.substring 0 (String.length s - 1) s ++ String c "")%string
  /\ strings.sliceChecked s 0 (strings.len s - 1)
     = Some (String.substring 0 (String.length s - 1) s).
Proof.
  unfold strings.at_, strings.len, strings.sliceChecked, strings.slice.
  destruct s as [|a s]; [discriminate |].
  destruct (Z.leb_spec 0 (Z.of_nat (String.length (String a s)) - 1)) as [H0|H0];
    [|discriminate].
  replace (Z.to_nat (Z.of_nat (String.length (String a s)) - 1))
    with (String.length s) by (cbn [String.length]; lia).
  replace (String.length (String a s) - 1) with (String.length s)
    by (cbn [String.length]; lia).
  intros Hget. split.
  - now apply last_byte_split.
  - destruct (Z.leb_spec 0 0); [|lia].
    destruct (Z.leb_spec (Z.of_nat (String.length (String a s)) - 1)
                (Z.of_nat (String.length (String a s)))); [|lia].
    cbn [andb]. change (Z.to_nat 0) with 0. now rewrite Nat.sub_0_r.
Qed.

Lemma prefix_split (p s : string) :
  String.prefix p s = true -> exists rest, s = (p ++ rest)%string.
Proof.
  revert s; induction p as [|a p IH]; intros s H.
  - now exists s.
  - destruct s as [|b s]; [discriminate |].
    cbn [String.prefix] in H. destruct (ascii_dec a b) as [<-|]; [|discriminate].
    destruct (IH s H) as [rest ->]. now exists rest.
Qed.

Lemma substring_all (s : string) : String.substring 0 (String.length s) s = s.
Proof. induction s as [|a s IH]; simpl; [reflexivity | now rewrite IH]. Qed.

Lemma drop_two (a b : ascii) (rest : string) :
  strings.sliceChecked (String a (String b rest)) 2
    (strings.len (String a (String b rest))) = Some rest.
Proof.
  unfold strings.sliceChecked, strings.slice, strings.len.
  cbn [String.length].
  destruct (Z.leb_spec 0 2); [|lia].
  destruct (Z.leb_spec 2 (Z.of_nat (S (S (String.length rest))))); [|lia].
  destruct (Z.leb_spec (Z.of_nat (S (S (String.length rest))))
              (Z.of_nat (S (S (String.length rest))))); [|lia].
  cbn [andb]. rewrite Nat2Z.id. change (Z.to_nat 2) with 2.
  cbn [Nat.sub String.substring]. rewrite Nat.sub_0_r.
  destruct rest; [reflexivity|]. now rewrite substring_all.
Qed.

Lemma snd_andThen {A B : Type} (c : Tool.Run A) (f : A -> Tool.Run B) :
  snd (Tool.andThen c f)
  = match snd c with
    | Returned a => snd (f a)
    | Panicked => Panicked
    end.
Proof. unfold Tool.andThen. now destruct (snd c). Qed.

Lemma fst_andThen {A B : Type} (c : Tool.Run A) (f : A -> Tool.Run B) :
  fst (Tool.andThen c f)
  = match snd c with
    | Returned a => fst c ++ fst (f a)
    | Panicked => fst c
    end.
Proof. unfold Tool.andThen. now destruct (snd c). Qed.

Lemma andThen_done {A B : Type} (a : A) (f : A -> Tool.Run B) :
  Tool.andThen (Tool.done a) f = f a.
Proof. unfold Tool.andThen, Tool.done. simpl. now destruct (f a). Qed.

(** The second step of [targetDirOf], on the directory [d] the first
    step left. *)
Lemma trailing_slash_step (d : string) :
  Tool.andThen (Tool.checked (strings.at_ d (strings.len d - 1)))
    (fun last =>
       if Ascii.eqb last "/"
       then Tool.checked (strings.sliceChecked d 0 (strings.len d - 1))
       else Tool.done d)
  = match strings.at_ d (strings.len d - 1) with
    | Some c =>
        ([], Returned (if Ascii.eqb c "/"
                       then String.substring 0 (String.length d - 1) d
                       else d))
    | None => ([], Panicked)
    end.
Proof.
  destruct (strings.at_ d (strings.len d - 1)) as [c|] eqn:Hc; [|reflexivity].
  cbn [Tool.checked]. rewrite andThen_done.
  destruct (Ascii.eqb c "/"); [|reflexivity].
  now rewrite (proj2 (at_last_split _ _ Hc)).
Qed.

Lemma targetDirOf_unfold (dir : string) :
  Tool.targetDirOf m dir
  = Tool.andThen
      (if strings.HasPrefix dir "./"
          || strings.HasPrefix dir ("." ++ Tool.PathSeparator m)
       then Tool.checked (strings.sliceChecked dir 2 (strings.len dir))
       else Tool.done dir)
      (fun d =>
         Tool.andThen (Tool.checked (strings.at_ d (strings.len d - 1)))
           (fun last =>
              if Ascii.eqb last "/"
              then Tool.checked (strings.sliceChecked d 0 (strings.len d - 1))
              else Tool.done d)).
Proof. reflexivity. Qed.

(** What a one-byte separator makes of the test for a leading [./]. *)
Lemma leading_dot (sep : ascii) (dir : string) :
  strings.HasPrefix dir "./" || strings.HasPrefix dir ("." ++ String sep "") = true
  <-> exists x rest, dir = String "." (String x rest) /\ (x = "/"%char \/ x = sep).
Proof.
  unfold strings.HasPrefix. rewrite orb_true_iff. split.
  - intros [H | H]; apply prefix_split in H; destruct H as [rest ->].
    + exists "/"%char, rest. split; [reflexivity | now left].
    + exists sep, rest. split; [reflexivity | now right].
  - intros (x & rest & -> & [-> | ->]); [left | right];
      cbn [String.append String.prefix];
      repeat match goal with
             | |- context [ascii_dec ?a ?a] =>
                 destruct (ascii_dec a a) as [_|Hne]; [|now elim Hne]
             end; now destruct rest.
Qed.

(** The whole of [targetDirOf] for a one-byte separator: [d] is what
    the first step leaves of [dir]. *)
Lemma targetDirOf_steps (dir : string) (sep : ascii) :
  Tool.PathSeparator m = String sep "" ->
  exists pre d,
    dir = (pre ++ d)%string /\
    (pre = "" \/ pre = "./" \/ pre = ("." ++ Tool.PathSeparator m)%string) /\
    (d = "" <-> dir = "" \/ dir = "./" \/ dir = ("." ++ Tool.PathSeparator m)%string) /\
    Tool.targetDirOf m dir
    = match strings.at_ d (strings.len d - 1) with
      | Some c =>
          ([], Returned (if Ascii.eqb c "/"
                         then String.substring 0 (String.length d - 1) d
                         else d))
      | None => ([], Panicked)
      end.
Proof.
  intros Hsep. rewrite targetDirOf_unfold, Hsep.
  destruct (strings.HasPrefix dir "./"
            || strings.HasPrefix dir ("." ++ String sep "")) eqn:Hdot.
  - apply leading_dot in Hdot. destruct Hdot as (x & rest & -> & Hx).
    exists (String "." (String x "")), rest.
    rewrite drop_two. cbn [Tool.checked].
    rewrite andThen_done, trailing_slash_step.
    split; [reflexivity |]. split; [|split; [|reflexivity]].
    + destruct Hx as [-> | ->]; [right; now left | right; now right].
    + split.
      * intros ->. destruct Hx as [-> | ->]; [right; now left | right; now right].
      * intros [H | [H | H]]; [discriminate H | |]; now injection H.
  - exists "", dir. rewrite andThen_done, trailing_slash_step.
    split; [reflexivity |]. split; [now left |]. split; [|reflexivity].
    split; [intros ->; now left |].
    intros [H | [H | H]]; [exact H | |]; exfalso;
      assert (Ht : strings.HasPrefix dir "./"
                   || strings.HasPrefix dir ("." ++ String sep "") = true)
        by (apply leading_dot; rewrite H; eexists _, _;
            split; [reflexivity | auto]);
      rewrite Ht in Hdot; discriminate Hdot.
Qed.

(** X19: with a one-byte path separator, the directory handling of
    [create] panics exactly on the [dir] values that are empty once the
    leading [./] is off: the empty string, [./], and a dot followed by
    the separator. *)
Theorem targetDirOf_panics_iff (dir : string) (sep : ascii) :
  Tool.PathSeparator m = String sep "" ->
  snd (Tool.targetDirOf m dir) = Panicked
  <-> dir = "" \/ dir = "./" \/ dir = ("." ++ Tool.PathSeparator m)%string.
Proof.
  intros Hsep.
  destruct (targetDirOf_steps dir sep Hsep) as (pre & d & _ & _ & Hempty & ->).
  rewrite <- Hempty.
  destruct d as [|a d].
  - split; reflexivity.
  - destruct (at_last (String a d)) as [c Hc]; [discriminate |].
    rewrite Hc. split; discriminate.
Qed.

(** X20: with a one-byte path separator, the directory [create] hands
    on is the [dir] flag less at most one leading [./] (or dot and
    separator) and at most one trailing slash, and nothing else. *)
Theorem targetDirOf_strips (dir d : string) (sep : ascii) (actions : list Tool.action) :
  Tool.PathSeparator m = String sep "" ->
  Tool.targetDirOf m dir = (actions, Returned d) ->
  actions = [] /\
  exists pre post,
    dir = (pre ++ d ++ post)%string /\
    (pre = "" \/ pre = "./" \/ pre = ("." ++ Tool.PathSeparator m)%string) /\
    (post = "" \/ post = "/").
Proof.
  intros Hsep.
  destruct (targetDirOf_steps dir sep Hsep) as (pre & d0 & Hdir & Hpre & _ & ->).
  destruct (strings.at_ d0 (strings.len d0 - 1)) as [c|] eqn:Hc; [|discriminate].
  intros H. injection H as <- <-. split; [reflexivity |].
  exists pre. destruct (Ascii.eqb_spec c "/") as [-> | _].
  - exists "/". rewrite <- (proj1 (at_last_split _ _ Hc)). auto.
  - exists "". split; [|auto].
    rewrite Hdir. f_equal. clear. induction d0; simpl; [reflexivity | now f_equal].
Qed.

Lemma append_not_empty (a b : string) : b <> "" -> (a ++ b)%string <> "".
Proof. intros Hb. destruct a; [exact Hb | discriminate]. Qed.

Lemma installTo_last (targetDir : string) :
  exists c, strings.at_ (Tool.installToOf m targetDir)
              (strings.len (Tool.installToOf m targetDir) - 1) = Some c.
Proof.
  apply at_last. unfold Tool.installToOf.
  do 2 apply append_not_empty. discriminate.
Qed.

Lemma snd_when_act (b : bool) (a : Tool.action) :
  snd (Tool.when b (Tool.act a)) = Returned tt.
Proof. now destruct b. Qed.

Lemma separator_test (c sep : ascii) :
  negb (Ascii.eqb c sep) || negb (Ascii.eqb c "/")
  = negb (Ascii.eqb c "/" && Ascii.eqb sep "/").
Proof.
  destruct (Ascii.eqb_spec c "/") as [-> | Hc]; cbn [negb orb andb].
  - rewrite orb_false_r. now rewrite Ascii.eqb_sym.
  - now rewrite orb_true_r.
Qed.

Lemma backendDir_eq (targetDir : string) (c : ascii) :
  strings.at_ (Tool.installToOf m targetDir)
    (strings.len (Tool.installToOf m targetDir) - 1) = Some c ->
  ((if negb (Ascii.eqb c (Tool.osPathSeparator m)) || negb (Ascii.eqb c "/")
    then Tool.installToOf m targetDir ++ Tool.PathSeparator m
    else Tool.installToOf m targetDir) ++ "backend")%string
  = Tool.backendDirOf m targetDir.
Proof.
  intros Hc. unfold Tool.backendDirOf, Tool.endsWithSlash.
  rewrite Hc, separator_test.
  now destruct (Ascii.eqb c "/" && Ascii.eqb (Tool.osPathSeparator m) "/").
Qed.

Lemma createPackage_returns (packageName targetDir : string) :
  snd (Tool.createPackage m packageName targetDir)
  = Returned
      match Tool.CopyDir m (Tool.packagesInstallDir m ++ Tool.PathSeparator m ++ packageName)
              (Tool.installToOf m targetDir) with
      | Some e => Some e
      | None => Tool.Start m (Tool.runCommandOf m) (Tool.backendDirOf m targetDir)
      end.
Proof.
  unfold Tool.createPackage. fold (Tool.installToOf m targetDir).
  rewrite snd_andThen. cbn [Tool.act snd].
  destruct (Tool.CopyDir m _ (Tool.installToOf m targetDir)) as [e|].
  - reflexivity.
  - rewrite snd_andThen. cbn [Tool.act snd].
    destruct (Tool.ReadFile m _) as [input rerr].
    destruct (installTo_last targetDir) as [c Hc]. rewrite Hc.
    cbn [Tool.checked].
    repeat (rewrite snd_andThen, ?snd_when_act; cbn [Tool.act Tool.done snd]).
    now rewrite (backendDir_eq targetDir c Hc).
Qed.

(** X21: [createPackage] never panics, and the error it returns is the
    copy's when the copy fails and otherwise that of starting the built
    program: a failure to read or write [main.go] or to start the build
    is printed and not returned. *)
Theorem createPackage_result (packageName targetDir : string) :
  snd (Tool.createPackage m packageName targetDir)
  = Returned
      match Tool.CopyDir m (Tool.packagesInstallDir m ++ Tool.PathSeparator m ++ packageName)
              (Tool.installToOf m targetDir) with
      | Some e => Some e
      | None => Tool.Start m (Tool.runCommandOf m) (Tool.backendDirOf m targetDir)
      end.
Proof. apply createPackage_returns. Qed.

(** X22: when the copy of the package fails, [createPackage] prints
    the failure and attempts nothing else.  When it succeeds,
    [createPackage] writes [main.go] back with the import path of the
    package replaced by the target directory (backslashes turned into
    slashes), prints that the package was installed, and starts the
    build and then the built program in the backend directory, whatever
    failed on the way. *)
Theorem createPackage_actions (packageName targetDir : string) :
  let installTo := Tool.installToOf m targetDir in
  let packageDir :=
    (Tool.packagesInstallDir m ++ Tool.PathSeparator m ++ packageName)%string in
  let actions := fst (Tool.createPackage m packageName targetDir) in
  match Tool.CopyDir m packageDir installTo with
  | Some e =>
      actions
      = [Tool.Copied packageDir installTo;
         Tool.Printf
           (Tool.nl ++ "Problem while copying the %s package to the %s. Trace: %s")
           [packageName; installTo; e]]
  | None =>
      In (Tool.Written (Tool.mainFileOf m targetDir)
            (strings.ReplaceAll (fst (Tool.ReadFile m (Tool.mainFileOf m targetDir)))
               ("github.com/iris-contrib/iris-command-assets/" ++ packageName ++ "/")
               (strings.ReplaceAll targetDir Tool.backslash "/" ++ "/")))
         actions /\
      In (Tool.InfoPrint "%s package was installed successfully" [packageName]) actions /\
      In (Tool.Started ["go"; "build"] (Tool.backendDirOf m targetDir)) actions /\
      In (Tool.Started (Tool.runCommandOf m) (Tool.backendDirOf m targetDir)) actions
  end.
Proof.
  intros installTo packageDir actions. subst actions installTo packageDir.
  unfold Tool.createPackage. fold (Tool.installToOf m targetDir).
  fold (Tool.mainFileOf m targetDir).
  rewrite fst_andThen. cbn [Tool.act snd fst].
  destruct (Tool.CopyDir m _ (Tool.installToOf m targetDir)) as [e|].
  - reflexivity.
  - rewrite fst_andThen. cbn [Tool.act snd fst].
    destruct (Tool.ReadFile m (Tool.mainFileOf m targetDir)) as [input rerr].
    destruct (installTo_last targetDir) as [c Hc]. rewrite Hc.
    cbn [Tool.checked].
    repeat (rewrite fst_andThen, ?snd_when_act; cbn [Tool.act Tool.done snd fst]).
    rewrite (backendDir_eq targetDir c Hc).
    change ["." ++ Tool.PathSeparator m
            ++ (if String.eqb (Tool.GOOS m) "windows"
                then "backend" ++ ".exe" else "backend")]%string
      with (Tool.runCommandOf m).
    repeat split; repeat (rewrite in_app_iff; cbn [In]); auto 20.
Qed.

(** X23: [create] never reports an error: when it does not panic it
    returns nil, whatever [createPackage] returned. *)
Theorem create_reports_no_error (flags : Tool.Flags) :
  snd (Tool.create m flags) = Returned None \/ snd (Tool.create m flags) = Panicked.
Proof.
  unfold Tool.create. rewrite snd_andThen.
  destruct (snd (Tool.when _ _)); [|now right].
  rewrite snd_andThen.
  destruct (snd (Tool.targetDirOf m _)); [|now right].
  rewrite snd_andThen, createPackage_returns. now left.
Qed.

(** X24: with a one-byte path separator, [create] on a [dir] that is
    empty, [./] or a dot and the separator panics after the download
    step: its actions are those of that step and [createPackage] never
    runs. *)
Theorem create_empty_dir (flags : Tool.Flags) (sep : ascii) :
  Tool.PathSeparator m = String sep "" ->
  (let dir := Tool.flagString flags "dir" in
   dir = "" \/ dir = "./" \/ dir = ("." ++ Tool.PathSeparator m)%string) ->
  snd (Tool.create m flags) = Panicked /\
  fst (Tool.create m flags)
  = fst (Tool.when (negb (Tool.DirectoryExists m (Tool.packagesInstallDir m))
                    || negb (Tool.flagBool flags "offline"))
           (Tool.downloadPackages m)).
Proof.
  intros Hsep Hdir. cbv zeta in Hdir.
  destruct (targetDirOf_steps (Tool.flagString flags "dir") sep Hsep)
    as (pre & d & _ & _ & Hempty & Hrun).
  apply Hempty in Hdir. subst d.
  change (strings.at_ "" (strings.len "" - 1)) with (@None ascii) in Hrun.
  unfold Tool.create. rewrite snd_andThen, fst_andThen.
  destruct (snd (Tool.when _ _)); [|now split].
  rewrite snd_andThen, fst_andThen, Hrun. cbn [fst snd].
  split; [reflexivity | apply app_nil_r].
Qed.

(** X25: a download that fails does not stop [create]: the failure is
    printed, the package is created all the same, and [create] returns
    nil. *)
Theorem create_continues_after_failed_download
    (flags : Tool.Flags) (installedDir e d : string) :
  Tool.flagBool flags "offline" = false ->
  Tool.Install m Tool.PackagesURL (Tool.packagesInstallDir m) = (installedDir, Some e) ->
  Tool.targetDirOf m (Tool.flagString flags "dir") = ([], Returned d) ->
  fst (Tool.create m flags)
  = [Tool.Installed Tool.PackagesURL (Tool.packagesInstallDir m);
     Tool.Printf
       (Tool.nl ++ "Problem while downloading the assets from the internet for the first time. Trace: %s")
       [e]]
    ++ fst (Tool.createPackage m (Tool.flagString flags "type") d)
  /\ snd (Tool.create m flags) = Returned None.
Proof.
  intros Hoffline Hinstall Hdir.
  unfold Tool.create. rewrite Hoffline, Hdir. cbn [negb].
  rewrite orb_true_r. cbn [Tool.when].
  assert (Hdown : Tool.downloadPackages m
                  = ([Tool.Installed Tool.PackagesURL (Tool.packagesInstallDir m);
                      Tool.Printf
                        (Tool.nl ++ "Problem while downloading the assets from the internet for the first time. Trace: %s")
                        [e]], Returned tt)).
  { unfold Tool.downloadPackages. rewrite Hinstall. reflexivity. }
  rewrite Hdown.
  rewrite !fst_andThen, !snd_andThen. cbn [fst snd app].
  rewrite !fst_andThen, !snd_andThen, createPackage_returns.
  cbn [fst snd Tool.done]. now rewrite app_nil_r.
Qed.

End ToolFacts.

(** ** The further facts at work *)

Lemma RouteByName_addRoute_fresh_witness :
  let r := registered (E := Demo.quiet) Demo.local [Demo.home] in
  RouteByName (addRoute r Demo.shared) "shared" = Demo.shared.
Proof.
  intros r. apply (RouteByName_addRoute_fresh (E := Demo.quiet) r Demo.shared).
  intros x [<- | []]. simpl. discriminate.
Defined.

Lemma RouteByName_addRoute_kept_witness :
  let r := registered (E := Demo.quiet) Demo.local [Demo.home] in
  let again :=
    Route.asIRoute
      {| Route.name := "home"; Route.method := "POST"; Route.path := "/home";
         Route.domain := ""; Route.cors := false |} in
  RouteByName (addRoute r again) "home" = RouteByName r "home".
Proof.
  intros r again.
  apply (RouteByName_addRoute_kept (E := Demo.quiet) r again "home").
  right. exists Demo.home. split; [now left | reflexivity].
Defined.

Lemma UriOf_registered_witness :
  let profile :=
    Route.asIRoute
      {| Route.name := "profile"; Route.method := "GET";
         Route.path := "/profile/:username"; Route.domain := ""; Route.cors := false |} in
  UriOf (E := Demo.quiet) (registered Demo.local [Demo.home; profile]) "profile"
    [ArgString "kataras"]
  = ("/profile/kataras", None).
Proof.
  intros profile.
  apply (UriOf_registered (E := Demo.quiet) Demo.local [Demo.home] [] profile
           [ArgString "kataras"]).
  - intros x [<- | []]. simpl. discriminate.
  - simpl. discriminate.
Defined.

Lemma optimize_profile_route_witness :
  let profiling :=
    {| config := {| DisablePathEscape := false; Profile := true;
                    ProfilePath := "/debug/pprof" |};
       serverHost := "127.0.0.1:8080" |} in
  let r := registered (E := Demo.quiet) profiling [Demo.home] in
  exists route,
    GetMethod route = "GET" /\
    GetPath route = "/debug/pprof/*action" /\
    lookups (optimize r) = lookups r ++ [route] /\
    garden (optimize r) = Plant (Engine := Demo.quiet) (station r) (garden r) route.
Proof.
  intros profiling r.
  exact (proj1 (optimize_profile_route (E := Demo.quiet) r eq_refl)).
Defined.

Lemma ServeRequest_no_method_match_witness :
  served (callServeRequest (Demo.request "DELETE" "blog.example.com" "/post")
            Demo.blogRouter)
  = [EvNotFound (E := Demo.quiet)
       (Some (Demo.request "DELETE" "blog.example.com" "/post"))].
Proof.
  apply (ServeRequest_no_method_match (E := Demo.quiet)
           (Demo.request "DELETE" "blog.example.com" "/post") Demo.blogRouter).
  intros t [<- | [<- | [<- | []]]]; reflexivity.
Defined.

Lemma serveFunc_cors_options_witness :
  let r := {| station := Demo.local; garden := [Demo.blogGet; Demo.plainPost];
              methodMatch := methodMatchCorsFunc;
              getRequestPath := getRequestPathDefault;
              lookups := []; ServeRequest := boundServeFunc;
              errorPool := []; optimized := true |} in
  let reqCtx := Demo.request "OPTIONS" "127.0.0.1:8080"
                  "blog.example.comblog.example.com/post" in
  served (serveFunc (E := Demo.quiet) reqCtx r)
  = [EvServe Demo.blogGet "blog.example.comblog.example.com/post" false;
     EvNotFound (E := Demo.quiet) (Some reqCtx)].
Proof.
  intros r reqCtx.
  exact (serveFunc_cors_options (E := Demo.quiet) reqCtx r Demo.blogGet
           [Demo.plainPost] eq_refl eq_refl eq_refl).
Defined.

Lemma serveDomainFunc_no_fulldomain_witness :
  let reqCtx := Demo.request "POST" "example.com" "/post" in
  requestFulldomain (Host reqCtx) (serverHost (station Demo.blogRouter)) = "" /\
  served (serveDomainFunc reqCtx Demo.blogRouter)
  = [EvServe Demo.blogPost "/post" false;
     EvServe Demo.plainPost "/post" false;
     EvNotFound (E := Demo.quiet) (Some reqCtx)].
Proof.
  intros reqCtx. split; [reflexivity |].
  exact (serveDomainFunc_no_fulldomain (E := Demo.quiet) reqCtx Demo.blogRouter
           eq_refl).
Defined.

Lemma serveDomainFunc_serves_what_serveFunc_serves_witness :
  let reqCtx := Demo.request "POST" "example.com" "blog.example.com/post" in
  served (serveDomainFunc reqCtx Demo.blogRouter)
  = [EvServe Demo.blogPost "blog.example.com/post" true].
Proof.
  intros reqCtx.
  exact (serveDomainFunc_serves_what_serveFunc_serves (E := Demo.quiet)
           reqCtx Demo.blogRouter Demo.blogPost "blog.example.com/post"
           eq_refl eq_refl).
Defined.

Lemma serveFuncLoop_later_trees_witness :
  let reqCtx := Demo.request "GET" "127.0.0.1:8080" "/post" in
  served (serveFuncLoop reqCtx "GET" "/post" ([Demo.blogGet] ++ [Demo.plainPost])
            Demo.blogRouter)
  = served (serveFuncLoop reqCtx "GET" "/post" [Demo.blogGet] Demo.blogRouter).
Proof.
  intros reqCtx.
  apply (serveFuncLoop_later_trees (E := Demo.quiet) reqCtx "GET" "/post"
           [Demo.blogGet] [Demo.plainPost] Demo.blogRouter).
  exists Demo.blogGet. split; [now left | reflexivity].
Defined.

Lemma serveDomainLoop_later_trees_witness :
  let reqCtx := Demo.request "POST" "example.com" "blog.example.com/post" in
  served (serveDomainLoop reqCtx "POST" "" "blog.example.com/post"
            ([Demo.blogPost] ++ [Demo.plainPost]) Demo.blogRouter)
  = served (serveDomainLoop reqCtx "POST" "" "blog.example.com/post"
              [Demo.blogPost] Demo.blogRouter).
Proof.
  intros reqCtx.
  apply (serveDomainLoop_later_trees (E := Demo.quiet) reqCtx "POST" ""
           "blog.example.com/post" [Demo.blogPost] [Demo.plainPost] Demo.blogRouter).
  exists Demo.blogPost, "blog.example.com/post". left. reflexivity.
Defined.

Lemma targetDirOf_panics_iff_witness :
  snd (Tool.targetDirOf Tool.unix "./") = Panicked.
Proof.
  apply (proj2 (targetDirOf_panics_iff Tool.unix "./" "/" eq_refl)).
  right. left. reflexivity.
Defined.

Lemma targetDirOf_strips_witness :
  Tool.targetDirOf Tool.unix "./myapp/" = ([], Returned "myapp") /\
  exists pre post,
    "./myapp/" = (pre ++ "myapp" ++ post)%string /\
    (pre = "" \/ pre = "./" \/ pre = "./") /\
    (post = "" \/ post = "/").
Proof.
  split; [reflexivity |].
  exact (proj2 (targetDirOf_strips Tool.unix "./myapp/" "myapp" "/" []
                  eq_refl eq_refl)).
Defined.

Lemma create_empty_dir_witness :
  snd (Tool.create Tool.unix (Tool.flagsOf true "./" "basic")) = Panicked /\
  fst (Tool.create Tool.unix (Tool.flagsOf true "./" "basic")) = [].
Proof.
  exact (create_empty_dir Tool.unix (Tool.flagsOf true "./" "basic") "/" eq_refl
           (or_intror (or_introl eq_refl))).
Defined.

Lemma create_continues_after_failed_download_witness :
  let flags := Tool.flagsOf false "myapp" "basic" in
  In (Tool.Started ["go"; "build"] "/home/gopher/go/src/myapp/backend")
     (fst (Tool.create Tool.unplugged flags)) /\
  snd (Tool.create Tool.unplugged flags) = Returned None.
Proof.
  intros flags.
  destruct (create_continues_after_failed_download Tool.unplugged flags
              "" "no route to host" "myapp" eq_refl eq_refl eq_refl) as [Hacts Hend].
  split; [|exact Hend].
  rewrite Hacts. vm_compute. auto 20.
Defined.

(** The tool on a machine where everything succeeds. *)
Example create_myapp :
  Tool.create Tool.unix (Tool.flagsOf true "./myapp/" "basic")
  = ([Tool.Copied "/home/gopher/go/src/github.com/iris-contrib/iris-command-assets//basic"
        "/home/gopher/go/src/myapp";
      Tool.Read "/home/gopher/go/src/myapp/backend/main.go";
      Tool.Written "/home/gopher/go/src/myapp/backend/main.go"
        "import myapp/backend/api";
      Tool.InfoPrint "%s package was installed successfully" ["basic"];
      Tool.Started ["go"; "build"] "/home/gopher/go/src/myapp/backend";
      Tool.Waited ["go"; "build"];
      Tool.Print (Tool.nl ++ Tool.nl);
      Tool.Started ["./backend"] "/home/gopher/go/src/myapp/backend";
      Tool.Waited ["./backend"]],
     Returned None).
Proof. reflexivity. Qed.
